(** * fgo_harvest: the ingestion-and-rendering orchestration of [harvest/app.py]

    A shallow embedding of the four entry points of [app.py]
    ([collect_tweets], [recollect_tweets], [rebuild_outputs],
    [invalidate_cloudfront_cache]) and of the render helpers they share.

    The entry points are glue around collaborators that live in
    [chalicelib] (twitter, recording, storage, settings), in boto3 and in
    the Python runtime.  The embedding threads an explicit [World] (the
    parts of the S3 bucket the program names, the upstream feed, the clock)
    through a state-and-exception monad, and records every collaborator
    invocation in a call log.  The collaborators themselves are the fields
    of the class [Chalicelib]; every theorem quantifies over them.

    Conventions:
    - a Python function that returns early is an [if]/[match] whose other
      branch holds the rest of the body;
    - [app.log] and [logger] calls are left out;
    - constructing [twitter.Agent], [recording.TweetRepository],
      [recording.Recorder] and the page builders has no effect outside the
      process and is not logged; constructing [twitter.CensoredAccounts]
      is, since it is what loads the exclusion set;
    - an S3 download that raises [ClientError] is an absent object;
    - the cursor object is covered where it is absent or holds ASCII text,
      as every object does that [collect_tweets] itself has written (the
      decimal digits of [str(tweet_id)], see [run_all_ascii_cursor]): on
      ASCII bytes [decode('utf-8')] is the identity and cannot raise.  An
      object with other bytes, where the decode may raise
      [UnicodeDecodeError] and [int] consults the interpreter's Unicode
      tables, is outside the model; statements about the text of a
      foreign cursor object name [Py.is_ascii] as a hypothesis. *)

From Stdlib Require Import ZArith Lia Ascii String.
From stdpp Require Import base decidable option list gmap strings.

Open Scope Z_scope.

(** ** Python built-ins used by [app.py] *)

Module Py.

(** Text is modelled as [string] (a sequence of 8-bit characters): the S3
    keys and the cursor object handled here are ASCII. *)

Definition ascii_Z (a : ascii) : Z := Z.of_N (N_of_ascii a).

(** [s.isascii()] *)
Fixpoint is_ascii (s : string) : bool :=
  match s with
  | EmptyString => true
  | String a r => (ascii_Z a <? 128) && is_ascii r
  end.

Definition is_digit (a : ascii) : bool :=
  (48 <=? ascii_Z a) && (ascii_Z a <=? 57).

Definition digit_val (a : ascii) : Z := ascii_Z a - 48.

Definition digit_char (d : Z) : ascii := ascii_of_N (Z.to_N (48 + d)).

(** The ASCII white space that [int] skips at both ends of its argument:
    tab, line feed, vertical tab, form feed, carriage return and space.
    The separators 0x1c to 0x1f, for which [str.isspace] holds, are not
    skipped: [int('\x1c5')] raises [ValueError]. *)
Definition is_space (a : ascii) : bool :=
  ((9 <=? ascii_Z a) && (ascii_Z a <=? 13)) || (ascii_Z a =? 32).

Fixpoint lstrip (s : string) : string :=
  match s with
  | String a r => if is_space a then lstrip r else s
  | EmptyString => EmptyString
  end.

Fixpoint rstrip (s : string) : string :=
  match s with
  | String a r =>
      match rstrip r with
      | EmptyString => if is_space a then EmptyString else String a EmptyString
      | r' => String a r'
      end
  | EmptyString => EmptyString
  end.

Definition strip (s : string) : string := rstrip (lstrip s).

(** The digit part of an integer literal: decimal digits, with single
    underscores allowed between two digits. *)
Inductive lit_state := LitStart | LitDigit | LitUnderscore.

Fixpoint int_digits (st : lit_state) (acc : Z) (s : string) : option Z :=
  match s with
  | EmptyString =>
      match st with LitDigit => Some acc | _ => None end
  | String a r =>
      if is_digit a then int_digits LitDigit (10 * acc + digit_val a) r
      else if Ascii.eqb a "_"
           then match st with
                | LitDigit => int_digits LitUnderscore acc r
                | _ => None
                end
           else None
  end.

(** [int(s)] for a [str] argument, base 10, on ASCII text: surrounding
    white space, an optional sign, digits with single underscores between
    them.  [None] is [ValueError].  On ASCII text a [None] here is a
    [ValueError] there.  Not covered: text that is not ASCII (there [int]
    also takes the white space and the decimal digits of the
    interpreter's Unicode tables), and the interpreter's limit on the
    number of digits (4300 by default, where it exists), beyond which
    [int] raises [ValueError] as well; the identifiers this program
    writes are far below it. *)
Definition int (s : string) : option Z :=
  match strip s with
  | String "-" r => Z.opp <$> int_digits LitStart 0 r
  | String "+" r => int_digits LitStart 0 r
  | r => int_digits LitStart 0 r
  end.

(** [str(n)] for an [int]: the decimal digits, most significant first. *)
Fixpoint str_digits (fuel : nat) (n : Z) : string :=
  match fuel with
  | O => EmptyString
  | S f =>
      if n <? 10 then String (digit_char n) EmptyString
      else str_digits f (n / 10) +:+ String (digit_char (n mod 10)) EmptyString
  end.

Definition str_nonneg (n : Z) : string :=
  str_digits (S (Z.to_nat (Z.log2 n))) n.

Definition str (n : Z) : string :=
  if n <? 0 then String "-" (str_nonneg (- n)) else str_nonneg n.

(** [len(s)] *)
Definition len (s : string) : Z := Z.of_nat (String.length s).

(** [s.endswith(suffix)] *)
Definition endswith (s suffix : string) : bool :=
  let n := String.length s in
  let m := String.length suffix in
  (m <=? n)%nat && String.eqb (substring (n - m) m s) suffix.

(** [s.rfind(c)] for a one-character [c]: the highest index at which [c]
    occurs in [s], or [-1]. *)
Fixpoint rfind_from (s : string) (c : ascii) (i last : Z) : Z :=
  match s with
  | EmptyString => last
  | String a r => rfind_from r c (i + 1) (if Ascii.eqb a c then i else last)
  end.

Definition rfind (s : string) (c : ascii) : Z := rfind_from s c 0 (-1).

(** [s[:k]]: a negative [k] counts from the end. *)
Definition slice_to (s : string) (k : Z) : string :=
  if k <? 0
  then substring 0 (String.length s - Z.to_nat (- k)) s
  else substring 0 (Z.to_nat k) s.

(** Zero-padded decimal fields of [strftime] ([%Y], [%m], [%d], ...). *)
Definition pad (width : nat) (n : Z) : string :=
  let s := str n in
  String.concat EmptyString (replicate (width - String.length s) "0"%string) +:+ s.

End Py.


(** ** Data model *)

(** [datetime.date] and [datetime.datetime]. *)
Record date := Date { year : Z; month : Z; day : Z }.

Record datetime := DateTime {
  dt_date : date;   (* [.date()] *)
  hour : Z;
  minute : Z;
  second : Z
}.

#[global] Instance date_eq_dec : EqDecision date.
Proof. solve_decision. Defined.

(** Modelled from the spec: [twitter.TweetCopy] is declared in chalicelib.
    [app.py] reads [tweet_id] and [created_at]; section 3 of the spec lists
    the author identifier and the raw payload as the other two parts. *)
Record TweetCopy := {
  tweet_id : Z;
  screen_name : string;
  created_at : datetime;
  full_text : string
}.

(** [twitter.ParseErrorTweet(tweet=..., error_message=...)] *)
Record ParseErrorTweet := {
  tweet : TweetCopy;
  error_message : string
}.

(** [request.json_body] *)
#[local] Unset Elimination Schemes.
Inductive json :=
| JNull
| JBool (b : bool)
| JNumber (n : Z)
| JString (s : string)
| JList (l : list json)
| JObject (l : list (string * json)).
#[local] Set Elimination Schemes.

(** The constructor arguments of [recording.Recorder] as [app.py] writes
    them.  [fileStorage] is [AmazonS3Storage(settings.S3Bucket)] at every
    construction site and is left out. *)
Inductive PartitioningRule :=
| PartitioningRuleByDate
| PartitioningRuleByUser
| PartitioningRuleByUserList
| PartitioningRuleByQuest
| PartitioningRuleByQuestList (rebuild : bool)
| PartitioningRuleByMonth.

Inductive SkipSaveRule :=
| SkipSaveRuleByDate (target : date)
| SkipSaveRuleByDateAndUser (target : date)
| SkipSaveRuleByDateAndQuest (target : date)
| SkipSaveRuleNeverMatch.

Inductive OutputFormat :=
| JSON | CSV | DATEHTML | USERHTML | USERLISTHTML
| QUESTHTML | QUESTLISTHTML | MONTHHTML.

Inductive ErrorOutputFormat := ErrJSON | ErrHTML.

Record Recorder := {
  partitioningRule : PartitioningRule;
  skipSaveRule : SkipSaveRule;
  basedir : string;
  formats : list OutputFormat
}.

Record ErrorPageRecorder := {
  err_basedir : string;
  err_key : string;
  err_formats : list ErrorOutputFormat
}.

(** The [event] of [rebuild_outputs]: [skipTargetDate] is
    [event.get("skipTargetDate")], the flags are
    [event.get("skipBuild...", False)]. *)
Record RebuildEvent := {
  skipTargetDate : option string;
  skipBuildDate : bool;
  skipBuildUser : bool;
  skipBuildQuest : bool;
  skipBuildMonth : bool
}.

(** One entry of [event['Records']] of an S3 notification, reduced to
    [['s3']['object']['key']] and [['s3']['object']['size']]. *)
Record S3Record := {
  key : string;
  size : Z
}.

Record S3Event := { Records : list S3Record }.

Inductive Exn :=
| BadRequestError (msg : string)   (* chalice.BadRequestError *)
| ValueError                       (* date.fromisoformat *)
| IndexError.                      (* event['Records'][0] *)

Inductive Result (A : Type) :=
| Return (a : A)
| Raise (e : Exn).
Arguments Return {A} a.
Arguments Raise {A} e.

(** ** Collaborators

    Everything [app.py] imports and calls but does not define.  Each
    operation is given the part of the world it can reach: the agent the
    upstream feed, a repository or recorder the objects under its
    [basedir], [CensoredAccounts] the one object at its [filepath].
    Failures of the network and of the blob store are not modelled: every
    operation returns. *)
Class Chalicelib := {
  (* chalicelib.settings *)
  S3Bucket : string;
  SettingsDir : string;
  LatestTweetIDFile : string;
  CensoredAccountsFile : string;
  TweetStorageDir : string;
  ProcessorOutputDir : string;
  CloudfrontDistributionId : string;

  RunReport : Type;         (* twitter.RunReport *)
  Feed : Type;              (* the upstream feed behind twitter.Agent *)
  CensoredAccounts : Type;  (* a twitter.CensoredAccounts object *)
  CensoredObject : Type;    (* the S3 object it loads from and saves to *)
  TweetObjects : Type;      (* the S3 objects under TweetStorageDir *)
  OutputObjects : Type;     (* the S3 objects under ProcessorOutputDir *)

  (* chalicelib.twitter *)

  (* parse_tweet(tweet): a report, or the message of TweetParseError *)
  parse_tweet : TweetCopy -> RunReport + string;
  (* StatusTweetURLParser on one entry of the body: (user, tweet id), or
     None for TweetURLParseError *)
  parse_url : json -> option (string * Z);
  (* agent.collect(max_repeat, since_id, censored): the tweets, and the
     exclusion set as the collection leaves it in memory *)
  agent_collect :
    Feed -> Z -> option Z -> CensoredAccounts -> list TweetCopy * CensoredAccounts;
  (* agent.get_multi(ids): a dict from id to tweet, in insertion order *)
  agent_get_multi : Feed -> list Z -> list (Z * TweetCopy);
  (* CensoredAccounts(fileStorage, filepath), .list() and .save() *)
  censored_init : CensoredObject -> CensoredAccounts;
  censored_list : CensoredAccounts -> list string;
  censored_save : CensoredAccounts -> CensoredObject -> CensoredObject;

  (* chalicelib.recording *)

  (* TweetRepository.put, .append_tweets and .readall *)
  tweet_put : string -> list TweetCopy -> TweetObjects -> TweetObjects;
  tweet_append_tweets : string -> list TweetCopy -> TweetObjects -> TweetObjects;
  tweet_readall : gset string -> TweetObjects -> list TweetCopy;
  (* UserOutputRepository(user, basedir).load(): the identifiers for which
     [target in user_reports] holds *)
  user_output_load : string -> string -> OutputObjects -> gset Z;
  (* Recorder.count() after add_all(reports): the number of partitions
     pending a write; the accumulation is in memory (spec, section 4.4) *)
  recorder_count : Recorder -> list RunReport -> Z;
  (* Recorder.save(force, ignore_original) after add_all(reports) *)
  recorder_save :
    Recorder -> list RunReport -> bool -> bool -> OutputObjects -> OutputObjects;
  (* ErrorPageRecorder.save(force, ignore_original) after add_all(errors) *)
  error_recorder_save :
    ErrorPageRecorder -> list ParseErrorTweet -> bool -> bool ->
    OutputObjects -> OutputObjects;
  (* LatestDatePageBuilder(basedir).build(), LatestMonthPageBuilder(...) *)
  latest_date_page_build : string -> OutputObjects -> OutputObjects;
  latest_month_page_build : string -> OutputObjects -> OutputObjects;

  (* Python runtime: date.fromisoformat, None for ValueError *)
  date_fromisoformat : string -> option date
}.

Section Harvest.
Context `{Chalicelib}.

(** Invocations of collaborators that reach outside the process, in the
    order [app.py] issues them.  Logging is not recorded. *)
Inductive Call :=
| S3DownloadFileobj (k : string)
| S3UploadFileobj (k : string) (content : string)
| CensoredAccountsInit (filepath : string)
| CensoredAccountsList
| CensoredAccountsSave
| AgentCollect (max_repeat : Z) (since_id : option Z)
| AgentGetMulti (ids : list Z)
| TweetRepositoryPut (file : string) (tweets : list TweetCopy)
| TweetRepositoryAppendTweets (file : string) (tweets : list TweetCopy)
| TweetRepositoryReadall (censored : gset string)
| UserOutputRepositoryLoad (user : string)
| RecorderSave (r : Recorder) (reports : list RunReport)
    (force ignore_original : bool)
| ErrorPageRecorderSave (r : ErrorPageRecorder)
    (errors : list ParseErrorTweet) (force ignore_original : bool)
| LatestDatePageBuilderBuild (dir : string)
| LatestMonthPageBuilderBuild (dir : string)
| CloudfrontCreateInvalidation (distribution : string) (quantity : Z)
    (items : list string) (caller_reference : string).

(** The state the entry points run against.  The four S3 components are
    disjoint key ranges of the one bucket [settings.S3Bucket]. *)
Record World := {
  feed : Feed;
  now : datetime;                         (* datetime.now() *)
  time_text : string;                     (* how time.time() prints *)
  randint : Z;                            (* random.randint(0, 1048576) *)
  latest_tweet_id_object : option string; (* SettingsDir/LatestTweetIDFile,
                                             ASCII text, None when absent *)
  censored_object : CensoredObject;       (* SettingsDir/CensoredAccountsFile *)
  tweet_objects : TweetObjects;
  output_objects : OutputObjects;
  calls : list Call                       (* oldest first *)
}.

Definition M (A : Type) : Type := World -> Result A * World.

#[global] Instance M_ret : MRet M := fun A a w => (Return a, w).

#[global] Instance M_bind : MBind M := fun A B f m w =>
  match m w with
  | (Return a, w') => f a w'
  | (Raise e, w') => (Raise e, w')
  end.

Definition raise {A} (e : Exn) : M A := fun w => (Raise e, w).

Definition call (c : Call) : M unit := fun w =>
  (Return tt,
   {| feed := feed w; now := now w; time_text := time_text w;
      randint := randint w;
      latest_tweet_id_object := latest_tweet_id_object w;
      censored_object := censored_object w;
      tweet_objects := tweet_objects w;
      output_objects := output_objects w;
      calls := calls w ++ [c] |}).

Definition read {A} (f : World -> A) : M A := fun w => (Return (f w), w).

Definition set_latest_tweet_id_object (o : option string) : M unit := fun w =>
  (Return tt,
   {| feed := feed w; now := now w; time_text := time_text w;
      randint := randint w;
      latest_tweet_id_object := o;
      censored_object := censored_object w;
      tweet_objects := tweet_objects w;
      output_objects := output_objects w;
      calls := calls w |}).

Definition update_censored_object (f : CensoredObject -> CensoredObject)
  : M unit := fun w =>
  (Return tt,
   {| feed := feed w; now := now w; time_text := time_text w;
      randint := randint w;
      latest_tweet_id_object := latest_tweet_id_object w;
      censored_object := f (censored_object w);
      tweet_objects := tweet_objects w;
      output_objects := output_objects w;
      calls := calls w |}).

Definition update_tweet_objects (f : TweetObjects -> TweetObjects)
  : M unit := fun w =>
  (Return tt,
   {| feed := feed w; now := now w; time_text := time_text w;
      randint := randint w;
      latest_tweet_id_object := latest_tweet_id_object w;
      censored_object := censored_object w;
      tweet_objects := f (tweet_objects w);
      output_objects := output_objects w;
      calls := calls w |}).

Definition update_output_objects (f : OutputObjects -> OutputObjects)
  : M unit := fun w =>
  (Return tt,
   {| feed := feed w; now := now w; time_text := time_text w;
      randint := randint w;
      latest_tweet_id_object := latest_tweet_id_object w;
      censored_object := censored_object w;
      tweet_objects := tweet_objects w;
      output_objects := f (output_objects w);
      calls := calls w |}).

(** [for x in l: body(x)] *)
Fixpoint for_each {A} (l : list A) (body : A -> M unit) : M unit :=
  match l with
  | [] => mret tt
  | x :: r => _ ← body x; for_each r body
  end.

(** *** [parse_tweets] *)

Fixpoint parse_tweets (tweets : list TweetCopy)
  : list RunReport * list ParseErrorTweet :=
  match tweets with
  | [] => ([], [])
  | tw :: rest =>
      let '(parsed, errors) := parse_tweets rest in
      match parse_tweet tw with
      | inl report => (report :: parsed, errors)
      | inr msg => (parsed, {| tweet := tw; error_message := msg |} :: errors)
      end
  end.

(** *** The render stages *)

(** [if recorder.count(): recorder.save(force=..., ignore_original=...)] *)
Definition save_if_count (r : Recorder) (reports : list RunReport)
    (force ignore_original : bool) : M unit :=
  if decide (recorder_count r reports = 0) then mret tt
  else
    _ ← call (RecorderSave r reports force ignore_original);
    update_output_objects (recorder_save r reports force ignore_original).

(** [recorder.save(force=..., ignore_original=...)] *)
Definition save_always (r : Recorder) (reports : list RunReport)
    (force ignore_original : bool) : M unit :=
  _ ← call (RecorderSave r reports force ignore_original);
  update_output_objects (recorder_save r reports force ignore_original).

Definition date_recorder (outdir : string) (skip_target_date : date) : Recorder :=
  {| partitioningRule := PartitioningRuleByDate;
     skipSaveRule := SkipSaveRuleByDate skip_target_date;
     basedir := outdir;
     formats := [JSON; CSV; DATEHTML] |}.

Definition render_date_contents (reports : list RunReport)
    (skip_target_date : date) (force_save ignore_original : bool) : M unit :=
  let outdir := ProcessorOutputDir +:+ "/date" in
  let recorder := date_recorder outdir skip_target_date in
  _ ← save_if_count recorder reports force_save ignore_original;
  _ ← call (LatestDatePageBuilderBuild outdir);
  update_output_objects (latest_date_page_build outdir).

Definition user_recorder (outdir : string) (skip_target_date : date) : Recorder :=
  {| partitioningRule := PartitioningRuleByUser;
     skipSaveRule := SkipSaveRuleByDateAndUser skip_target_date;
     basedir := outdir;
     formats := [JSON; CSV; USERHTML] |}.

Definition userlist_recorder (outdir : string) : Recorder :=
  {| partitioningRule := PartitioningRuleByUserList;
     skipSaveRule := SkipSaveRuleNeverMatch;
     basedir := outdir;
     formats := [JSON; USERLISTHTML] |}.

Definition render_user_contents (reports : list RunReport)
    (skip_target_date : date) (force_save ignore_original : bool) : M unit :=
  let outdir := ProcessorOutputDir +:+ "/user" in
  let recorder := user_recorder outdir skip_target_date in
  _ ← save_if_count recorder reports force_save ignore_original;
  let recorder_byuserlist := userlist_recorder outdir in
  save_if_count recorder_byuserlist reports force_save ignore_original.

Definition quest_recorder (outdir : string) (skip_target_date : date) : Recorder :=
  {| partitioningRule := PartitioningRuleByQuest;
     skipSaveRule := SkipSaveRuleByDateAndQuest skip_target_date;
     basedir := outdir;
     formats := [JSON; CSV; QUESTHTML] |}.

Definition questlist_recorder (outdir : string) (ignore_original : bool)
  : Recorder :=
  {| partitioningRule := PartitioningRuleByQuestList ignore_original;
     skipSaveRule := SkipSaveRuleNeverMatch;
     basedir := outdir;
     formats := [JSON; QUESTLISTHTML] |}.

Definition render_quest_contents (reports : list RunReport)
    (skip_target_date : date) (force_save ignore_original : bool) : M unit :=
  let outdir := ProcessorOutputDir +:+ "/quest" in
  let recorder := quest_recorder outdir skip_target_date in
  _ ← save_if_count recorder reports force_save ignore_original;
  let recorder_byquestlist := questlist_recorder outdir ignore_original in
  save_always recorder_byquestlist reports true ignore_original.

Definition error_recorder (outdir : string) : ErrorPageRecorder :=
  {| err_basedir := outdir;
     err_key := "error";
     err_formats := [ErrJSON; ErrHTML] |}.

Definition render_error_contents (errors : list ParseErrorTweet)
    (force_save ignore_original : bool) : M unit :=
  let outdir := ProcessorOutputDir +:+ "/errors" in
  let recorder := error_recorder outdir in
  _ ← call (ErrorPageRecorderSave recorder errors force_save ignore_original);
  update_output_objects
    (error_recorder_save recorder errors force_save ignore_original).

Definition render_contents (reports : list RunReport)
    (errors : list ParseErrorTweet) (skip_target_date : date)
    (ignore_original : bool) : M unit :=
  _ ← render_date_contents reports skip_target_date false ignore_original;
  _ ← render_user_contents reports skip_target_date false ignore_original;
  _ ← render_quest_contents reports skip_target_date false ignore_original;
  render_error_contents errors false ignore_original.

Definition month_recorder (outdir : string) (skip_target_date : date) : Recorder :=
  {| partitioningRule := PartitioningRuleByMonth;
     skipSaveRule := SkipSaveRuleByDate skip_target_date;
     basedir := outdir;
     formats := [JSON; CSV; MONTHHTML] |}.

Definition render_month_contents (reports : list RunReport)
    (skip_target_date : date) (force_save : bool) : M unit :=
  let outdir := ProcessorOutputDir +:+ "/month" in
  let recorder := month_recorder outdir skip_target_date in
  _ ← save_if_count recorder reports force_save true;
  _ ← call (LatestMonthPageBuilderBuild outdir);
  update_output_objects (latest_month_page_build outdir).

(** *** [collect_tweets] *)

Definition latest_tweet_id_file_key : string :=
  SettingsDir +:+ "/" +:+ LatestTweetIDFile.

Definition censored_accounts_filepath : string :=
  SettingsDir +:+ "/" +:+ CensoredAccountsFile.

(** [bucket.download_fileobj(key, bio); bio.getvalue().decode('utf-8')],
    with the empty text when the download raises [ClientError].  The
    object holds ASCII text (see the conventions at the head of the file),
    which [decode] returns as it is; the [UnicodeDecodeError] of other
    bytes, which [app.py] does not catch, is outside the model. *)
Definition download_latest_tweet_id : M string :=
  _ ← call (S3DownloadFileobj latest_tweet_id_file_key);
  o ← read latest_tweet_id_object;
  mret (match o with Some s => s | None => EmptyString end).

(** [twitter.CensoredAccounts(fileStorage=..., filepath=...)] *)
Definition new_censored_accounts : M CensoredAccounts :=
  _ ← call (CensoredAccountsInit censored_accounts_filepath);
  o ← read censored_object;
  mret (censored_init o).

(** [datetime.strftime('%Y%m%d_%H%M%S')] and
    [date.strftime('%Y%m%d_000000')], for years of four digits. *)
Definition strftime_Ymd (d : date) : string :=
  Py.pad 4 (year d) +:+ Py.pad 2 (month d) +:+ Py.pad 2 (day d).

Definition strftime_Ymd_HMS (t : datetime) : string :=
  strftime_Ymd (dt_date t) +:+ "_"
  +:+ Py.pad 2 (hour t) +:+ Py.pad 2 (minute t) +:+ Py.pad 2 (second t).

Definition strftime_Ymd_000000 (d : date) : string :=
  strftime_Ymd d +:+ "_000000".

Definition collect_tweets : M unit :=
  latest_tweet_id_str ← download_latest_tweet_id;
  censored_accounts ← new_censored_accounts;
  let since_id := Py.int latest_tweet_id_str in
  f ← read feed;
  _ ← call (AgentCollect 5 since_id);
  let '(tweets, censored_accounts) := agent_collect f 5 since_id censored_accounts in
  match tweets with
  | [] => mret tt
  | latest_tweet :: _ =>
      t ← read now;
      let tweet_log_file := strftime_Ymd_HMS t +:+ ".json" in
      _ ← call (TweetRepositoryPut tweet_log_file tweets);
      _ ← update_tweet_objects (tweet_put tweet_log_file tweets);
      let '(reports, errors) := parse_tweets tweets in
      let skip_target_date := Date 2000 1 1 in
      _ ← render_date_contents reports skip_target_date false false;
      _ ← render_user_contents reports skip_target_date false false;
      _ ← render_quest_contents reports skip_target_date false false;
      _ ← render_error_contents errors false false;
      let latest_tweet_id_bytes := Py.str (tweet_id latest_tweet) in
      _ ← call (S3UploadFileobj latest_tweet_id_file_key latest_tweet_id_bytes);
      _ ← set_latest_tweet_id_object (Some latest_tweet_id_bytes);
      _ ← call CensoredAccountsSave;
      update_censored_object (censored_save censored_accounts)
  end.

(** *** [recollect_tweets] *)

(** [d[dt].append(tw)] when [dt in d], else [d[dt] = [tw]]; the dict keeps
    insertion order. *)
Fixpoint dict_append {K V} `{EqDecision K} (d : list (K * list V)) (k : K) (v : V)
  : list (K * list V) :=
  match d with
  | [] => [(k, [v])]
  | (k', vs) :: rest =>
      if decide (k' = k) then (k', vs ++ [v]) :: rest
      else (k', vs) :: dict_append rest k v
  end.

Definition split_tweets_by_date (tweets : list TweetCopy)
  : list (date * list TweetCopy) :=
  foldl (fun d tw => dict_append d (dt_date (created_at tw)) tw) [] tweets.

(** Modelled from the spec: [twitter.StatusTweetURLParser.parse_multi] is
    declared in chalicelib.  Section 4.2 step 1: every URL is parsed into a
    (source, target-identifier) pair and any single unparseable URL fails
    the entire call ([None] is [TweetURLParseError]); step 2 groups the
    targets by distinct source.  The parse of one URL is the collaborator
    [parse_url]. *)
Fixpoint parse_multi_from (d : list (string * list Z)) (urls : list json)
  : option (list (string * list Z)) :=
  match urls with
  | [] => Some d
  | url :: rest =>
      match parse_url url with
      | Some (user, target) => parse_multi_from (dict_append d user target) rest
      | None => None
      end
  end.

Definition parse_multi (urls : list json) : option (list (string * list Z)) :=
  parse_multi_from [] urls.

(** The inner loop [for target in targets: if target not in user_reports:
    candidates.append(target)]. *)
Definition missing_targets (user_reports : gset Z) (targets : list Z) : list Z :=
  filter (fun target => target ∉ user_reports) targets.

(** The outer loop over [user_retargets_dict.items()], returning
    [candidates]. *)
Fixpoint find_candidates (items : list (string * list Z)) (candidates : list Z)
  : M (list Z) :=
  match items with
  | [] => mret candidates
  | (user, targets) :: rest =>
      _ ← call (UserOutputRepositoryLoad user);
      o ← read output_objects;
      let user_reports :=
        user_output_load user (ProcessorOutputDir +:+ "/user") o in
      find_candidates rest (candidates ++ missing_targets user_reports targets)
  end.

Definition status_ok : list (string * string) := [("status", "ok")]%string.

(** The body of [for dt, tweets in tweets_by_date.items()]. *)
Definition recollect_one_date (entry : date * list TweetCopy) : M unit :=
  let '(dt, tweets) := entry in
  let tweet_log_file := strftime_Ymd_000000 dt +:+ ".json" in
  _ ← call (TweetRepositoryAppendTweets tweet_log_file tweets);
  _ ← update_tweet_objects (tweet_append_tweets tweet_log_file tweets);
  let '(reports, errors) := parse_tweets tweets in
  let skip_target_date := Date 2000 1 1 in
  _ ← render_date_contents reports skip_target_date false false;
  _ ← render_user_contents reports skip_target_date false false;
  _ ← render_quest_contents reports skip_target_date false false;
  render_error_contents errors false false.

Definition recollect_tweets (data : json) : M (list (string * string)) :=
  match data with
  | JList data =>
      if decide (20 < Z.of_nat (length data)) then
        raise (BadRequestError "wrong format")
      else
        match parse_multi data with
        | None => raise (BadRequestError "wrong format")
        | Some user_retargets_dict =>
            candidates ← find_candidates user_retargets_dict [];
            match candidates with
            | [] => mret status_ok
            | _ :: _ =>
                f ← read feed;
                _ ← call (AgentGetMulti candidates);
                let tweet_dict := agent_get_multi f candidates in
                match tweet_dict with
                | [] => mret status_ok
                | _ :: _ =>
                    let tweets_by_date :=
                      split_tweets_by_date (snd <$> tweet_dict) in
                    _ ← for_each tweets_by_date recollect_one_date;
                    mret status_ok
                end
            end
        end
  | _ => raise (BadRequestError "wrong format")
  end.

(** *** [rebuild_outputs] *)

Definition rebuild_outputs (event : RebuildEvent) : M unit :=
  skip_target_date ←
    match skipTargetDate event with
    | Some (String a r) =>
        match date_fromisoformat (String a r) with
        | Some d => mret d
        | None => raise ValueError
        end
    | _ => mret (Date 2000 1 1)
    end;
  censored_accounts ← new_censored_accounts;
  _ ← call CensoredAccountsList;
  let censored : gset string := list_to_set (censored_list censored_accounts) in
  _ ← call (TweetRepositoryReadall censored);
  o ← read tweet_objects;
  let tweets := tweet_readall censored o in
  let '(reports, errors) := parse_tweets tweets in
  _ ← (if skipBuildDate event then mret tt
       else render_date_contents reports skip_target_date false true);
  _ ← (if skipBuildUser event then mret tt
       else render_user_contents reports skip_target_date false true);
  _ ← (if skipBuildQuest event then mret tt
       else render_quest_contents reports skip_target_date false true);
  _ ← (if skipBuildMonth event then mret tt
       else render_month_contents reports skip_target_date false);
  render_contents reports errors skip_target_date true.

(** *** [invalidate_cloudfront_cache] *)

Definition generate_caller_reference : M string :=
  t ← read time_text;
  r ← read randint;
  mret ("harvest-" +:+ t +:+ "-" +:+ Py.str r).

Definition invalidate_cloudfront_cache (event : S3Event) : M unit :=
  match Records event with
  | [] => raise IndexError
  | record :: _ =>
      let object_size := size record in
      let item := "/" +:+ key record in
      if negb (Py.endswith item "/index.html") then mret tt
      else if object_size <? 600 then mret tt
      else
        let items := [Py.slice_to item (Py.rfind item "/" + 1)] in
        ref ← generate_caller_reference;
        call (CloudfrontCreateInvalidation CloudfrontDistributionId
                (Z.of_nat (length items)) items ref)
  end.

End Harvest.

(** ** Observations on worlds *)

Section Observations.
Context `{Chalicelib}.

(** The Cursor as [collect_tweets] reads it: the integer the object holds,
    [None] when the object is absent or does not parse. *)
Definition cursor (w : World) : option Z :=
  match latest_tweet_id_object w with
  | Some s => Py.int s
  | None => None
  end.

(** "Not behind": an absent cursor is behind every cursor. *)
Definition cursor_le (a b : option Z) : Prop :=
  match a, b with
  | None, _ => True
  | Some _, None => False
  | Some x, Some y => x <= y
  end.

(** The calls a run added to the log. *)
Definition new_calls (w w' : World) : list Call :=
  drop (length (calls w)) (calls w').

(** The four persisted components of a world. *)
Definition same_objects (w w' : World) : Prop :=
  latest_tweet_id_object w' = latest_tweet_id_object w
  /\ censored_object w' = censored_object w
  /\ tweet_objects w' = tweet_objects w
  /\ output_objects w' = output_objects w.

(** Calls that read or write the Cursor object or that create, read or
    persist the exclusion set. *)
Definition cursor_or_exclusion_call (c : Call) : bool :=
  match c with
  | S3DownloadFileobj _ | S3UploadFileobj _ _
  | CensoredAccountsInit _ | CensoredAccountsList | CensoredAccountsSave
  | AgentCollect _ _ => true
  | _ => false
  end.

(** Calls of the render fan-out. *)
Definition render_call (c : Call) : bool :=
  match c with
  | RecorderSave _ _ _ _ | ErrorPageRecorderSave _ _ _ _
  | LatestDatePageBuilderBuild _ | LatestMonthPageBuilderBuild _ => true
  | _ => false
  end.

(** Calls that write to the bucket or to the CDN. *)
Definition write_call (c : Call) : bool :=
  match c with
  | S3UploadFileobj _ _ | CensoredAccountsSave
  | TweetRepositoryPut _ _ | TweetRepositoryAppendTweets _ _
  | RecorderSave _ _ _ _ | ErrorPageRecorderSave _ _ _ _
  | LatestDatePageBuilderBuild _ | LatestMonthPageBuilderBuild _
  | CloudfrontCreateInvalidation _ _ _ _ => true
  | _ => false
  end.

(** Calls that contact the Feed Collector. *)
Definition fetch_call (c : Call) : bool :=
  match c with
  | AgentCollect _ _ | AgentGetMulti _ => true
  | _ => false
  end.

(** The calls of one pass of the loop of [recollect_tweets] over the
    dates: an append to the raw log and the fan-out without the month
    stage. *)
Definition recollect_call (c : Call) : bool :=
  match c with
  | TweetRepositoryAppendTweets _ _ => true
  | RecorderSave r _ _ _ =>
      match partitioningRule r with PartitioningRuleByMonth => false | _ => true end
  | ErrorPageRecorderSave _ _ _ _ | LatestDatePageBuilderBuild _ => true
  | _ => false
  end.

(** Calls of the month stage. *)
Definition month_call (c : Call) : bool :=
  match c with
  | RecorderSave r _ _ _ =>
      match partitioningRule r with PartitioningRuleByMonth => true | _ => false end
  | LatestMonthPageBuilderBuild _ => true
  | _ => false
  end.

(** The calls each render stage issues; [recorder_count] does not depend on
    the world, so these are functions of the arguments alone. *)
Definition save_calls (r : Recorder) (reports : list RunReport)
    (force ignore_original : bool) : list Call :=
  if decide (recorder_count r reports = 0) then []
  else [RecorderSave r reports force ignore_original].

Definition date_calls (reports : list RunReport) (d : date)
    (force ignore_original : bool) : list Call :=
  save_calls (date_recorder (ProcessorOutputDir +:+ "/date") d)
    reports force ignore_original
  ++ [LatestDatePageBuilderBuild (ProcessorOutputDir +:+ "/date")].

Definition user_calls (reports : list RunReport) (d : date)
    (force ignore_original : bool) : list Call :=
  save_calls (user_recorder (ProcessorOutputDir +:+ "/user") d)
    reports force ignore_original
  ++ save_calls (userlist_recorder (ProcessorOutputDir +:+ "/user"))
       reports force ignore_original.

Definition quest_calls (reports : list RunReport) (d : date)
    (force ignore_original : bool) : list Call :=
  save_calls (quest_recorder (ProcessorOutputDir +:+ "/quest") d)
    reports force ignore_original
  ++ [RecorderSave
        (questlist_recorder (ProcessorOutputDir +:+ "/quest") ignore_original)
        reports true ignore_original].

Definition error_calls (errors : list ParseErrorTweet)
    (force ignore_original : bool) : list Call :=
  [ErrorPageRecorderSave (error_recorder (ProcessorOutputDir +:+ "/errors"))
     errors force ignore_original].

Definition month_calls (reports : list RunReport) (d : date) (force : bool)
  : list Call :=
  save_calls (month_recorder (ProcessorOutputDir +:+ "/month") d)
    reports force true
  ++ [LatestMonthPageBuilderBuild (ProcessorOutputDir +:+ "/month")].

Definition fanout_calls (reports : list RunReport)
    (errors : list ParseErrorTweet) (d : date) (ignore_original : bool)
  : list Call :=
  date_calls reports d false ignore_original
  ++ user_calls reports d false ignore_original
  ++ quest_calls reports d false ignore_original
  ++ error_calls errors false ignore_original.

(** The rendered objects each stage leaves behind. *)
Definition save_outputs (r : Recorder) (reports : list RunReport)
    (force ignore_original : bool) (o : OutputObjects) : OutputObjects :=
  if decide (recorder_count r reports = 0) then o
  else recorder_save r reports force ignore_original o.

Definition date_outputs (reports : list RunReport) (d : date)
    (force ignore_original : bool) (o : OutputObjects) : OutputObjects :=
  latest_date_page_build (ProcessorOutputDir +:+ "/date")
    (save_outputs (date_recorder (ProcessorOutputDir +:+ "/date") d)
       reports force ignore_original o).

Definition user_outputs (reports : list RunReport) (d : date)
    (force ignore_original : bool) (o : OutputObjects) : OutputObjects :=
  save_outputs (userlist_recorder (ProcessorOutputDir +:+ "/user"))
    reports force ignore_original
    (save_outputs (user_recorder (ProcessorOutputDir +:+ "/user") d)
       reports force ignore_original o).

Definition quest_outputs (reports : list RunReport) (d : date)
    (force ignore_original : bool) (o : OutputObjects) : OutputObjects :=
  recorder_save
    (questlist_recorder (ProcessorOutputDir +:+ "/quest") ignore_original)
    reports true ignore_original
    (save_outputs (quest_recorder (ProcessorOutputDir +:+ "/quest") d)
       reports force ignore_original o).

Definition error_outputs (errors : list ParseErrorTweet)
    (force ignore_original : bool) (o : OutputObjects) : OutputObjects :=
  error_recorder_save (error_recorder (ProcessorOutputDir +:+ "/errors"))
    errors force ignore_original o.

Definition month_outputs (reports : list RunReport) (d : date) (force : bool)
    (o : OutputObjects) : OutputObjects :=
  latest_month_page_build (ProcessorOutputDir +:+ "/month")
    (save_outputs (month_recorder (ProcessorOutputDir +:+ "/month") d)
       reports force true o).

Definition fanout_outputs (reports : list RunReport)
    (errors : list ParseErrorTweet) (d : date) (ignore_original : bool)
    (o : OutputObjects) : OutputObjects :=
  error_outputs errors false ignore_original
    (quest_outputs reports d false ignore_original
       (user_outputs reports d false ignore_original
          (date_outputs reports d false ignore_original o))).

(** A world after some calls that changed the raw log and the rendered
    objects and nothing else. *)
Definition after (w : World) (t : TweetObjects) (o : OutputObjects)
    (cs : list Call) : World :=
  {| feed := feed w; now := now w; time_text := time_text w;
     randint := randint w;
     latest_tweet_id_object := latest_tweet_id_object w;
     censored_object := censored_object w;
     tweet_objects := t;
     output_objects := o;
     calls := calls w ++ cs |}.

(** The calls [collect_tweets] issues before it looks at the batch. *)
Definition collect_prologue (w : World) : list Call :=
  [S3DownloadFileobj latest_tweet_id_file_key;
   CensoredAccountsInit censored_accounts_filepath;
   AgentCollect 5 (cursor w)].

(** What the collector returns to [collect_tweets] in world [w]. *)
Definition collected (w : World) : list TweetCopy * CensoredAccounts :=
  agent_collect (feed w) 5 (cursor w) (censored_init (censored_object w)).

(** [recollect_tweets]: the loads of per-source state and the candidates
    they leave. *)
Definition load_calls (items : list (string * list Z)) : list Call :=
  (fun item => UserOutputRepositoryLoad item.1) <$> items.

Definition candidates_of (o : OutputObjects) (items : list (string * list Z))
  : list Z :=
  items ≫= fun item =>
    missing_targets (user_output_load item.1 (ProcessorOutputDir +:+ "/user") o)
      item.2.

(** Every requested target is already in the per-source rendered state. *)
Definition all_present (o : OutputObjects) (urls : list json) : Prop :=
  forall url user target,
    url ∈ urls -> parse_url url = Some (user, target) ->
    target ∈ user_output_load user (ProcessorOutputDir +:+ "/user") o.

(** A request body that [recollect_tweets] takes up: a list of at most 20
    URLs, each of which parses. *)
Definition well_formed (urls : list json) : Prop :=
  Z.of_nat (length urls) <= 20
  /\ forall url, url ∈ urls -> is_Some (parse_url url).

(** A request body that must be rejected. *)
Definition malformed (data : json) : Prop :=
  match data with
  | JList urls =>
      20 < Z.of_nat (length urls)
      \/ exists url, url ∈ urls /\ parse_url url = None
  | _ => True
  end.

(** A run of [recollect_tweets] that did nothing: success, no object
    changed, no fetch and no write issued. *)
Definition recollect_noop (data : json) (w : World) : Prop :=
  (recollect_tweets data w).1 = Return status_ok
  /\ same_objects w (recollect_tweets data w).2
  /\ Forall (fun c => fetch_call c = false /\ write_call c = false)
       (new_calls w (recollect_tweets data w).2).

(** [rebuild_outputs]: the skip-target date, [None] when
    [date.fromisoformat] raises. *)
Definition rebuild_target (event : RebuildEvent) : option date :=
  match skipTargetDate event with
  | Some (String a r) => date_fromisoformat (String a r)
  | _ => Some (Date 2000 1 1)
  end.

Definition rebuild_tweets (w : World) : list TweetCopy :=
  tweet_readall
    (list_to_set (censored_list (censored_init (censored_object w))))
    (tweet_objects w).

Definition rebuild_prologue (w : World) : list Call :=
  [CensoredAccountsInit censored_accounts_filepath;
   CensoredAccountsList;
   TweetRepositoryReadall
     (list_to_set (censored_list (censored_init (censored_object w))))].

(** The four renders guarded by the skip flags. *)
Definition guarded_calls (event : RebuildEvent) (reports : list RunReport)
    (d : date) : list Call :=
  (if skipBuildDate event then [] else date_calls reports d false true)
  ++ (if skipBuildUser event then [] else user_calls reports d false true)
  ++ (if skipBuildQuest event then [] else quest_calls reports d false true)
  ++ (if skipBuildMonth event then [] else month_calls reports d false).

Definition guarded_outputs (event : RebuildEvent) (reports : list RunReport)
    (d : date) (o : OutputObjects) : OutputObjects :=
  let o := if skipBuildDate event then o else date_outputs reports d false true o in
  let o := if skipBuildUser event then o else user_outputs reports d false true o in
  let o := if skipBuildQuest event then o else quest_outputs reports d false true o in
  if skipBuildMonth event then o else month_outputs reports d false o.

(** *** Sequences of invocations *)

(** What can happen to a world: one of the four entry points runs, or the
    surroundings move (new posts upstream, time passes). *)
Inductive Invocation :=
| Scheduled
| Recollect (data : json)
| Rebuild (event : RebuildEvent)
| Invalidate (event : S3Event)
| Surroundings (f : Feed) (t : datetime) (txt : string) (r : Z).

Definition run (i : Invocation) (w : World) : World :=
  match i with
  | Scheduled => (collect_tweets w).2
  | Recollect data => (recollect_tweets data w).2
  | Rebuild event => (rebuild_outputs event w).2
  | Invalidate event => (invalidate_cloudfront_cache event w).2
  | Surroundings f t txt r =>
      {| feed := f; now := t; time_text := txt; randint := r;
         latest_tweet_id_object := latest_tweet_id_object w;
         censored_object := censored_object w;
         tweet_objects := tweet_objects w;
         output_objects := output_objects w;
         calls := calls w |}
  end.

Definition run_all (invs : list Invocation) (w : World) : World :=
  foldl (fun w i => run i w) w invs.

(** The collector's contract of section 4.1: every item returned is newer
    than the cursor it was given; and what it is for a batch to come
    newest first. *)
Definition returns_only_newer : Prop :=
  forall f n c cens tw,
    tw ∈ (agent_collect f n (Some c) cens).1 -> c < tweet_id tw.

Fixpoint newest_first (tweets : list TweetCopy) : Prop :=
  match tweets with
  | [] => True
  | tw :: rest => Forall (fun o => tweet_id o <= tweet_id tw) rest /\ newest_first rest
  end.

End Observations.

(** A world after some calls that changed only the rendered objects. *)
Abbreviation rendered w o cs := (after w (tweet_objects w) o cs) (only parsing).

(** ** A small concrete instance of the collaborators

    Reports are the tweets themselves; a tweet with an empty text fails to
    parse; the rendered state remembers, per user, the identifiers saved by
    the by-user recorder. *)
Module Demo.

Definition demo_parse_tweet (tw : TweetCopy) : TweetCopy + string :=
  match full_text tw with
  | EmptyString => inr "empty"%string
  | _ => inl tw
  end.

(** URLs of the shape [<user>/<id>]. *)
Definition demo_parse_url (j : json) : option (string * Z) :=
  match j with
  | JString s =>
      let k := Py.rfind s "/" in
      if k <? 0 then None
      else
        match Py.int (substring (Z.to_nat k + 1) (String.length s) s) with
        | Some n => Some (Py.slice_to s k, n)
        | None => None
        end
  | _ => None
  end.

Definition newer_than (since_id : option Z) (tw : TweetCopy) : bool :=
  match since_id with
  | Some c => c <? tweet_id tw
  | None => true
  end.

Definition demo_agent_collect (f : list TweetCopy) (max_repeat : Z)
    (since_id : option Z) (cens : list string)
  : list TweetCopy * list string :=
  (filter (fun tw => newer_than since_id tw = true /\ screen_name tw ∉ cens) f,
   cens).

Definition demo_agent_get_multi (f : list TweetCopy) (ids : list Z)
  : list (Z * TweetCopy) :=
  (fun tw => (tweet_id tw, tw)) <$> filter (fun tw => tweet_id tw ∈ ids) f.

Definition demo_recorder_save (r : Recorder) (reports : list TweetCopy)
    (force ignore_original : bool) (o : list (string * Z))
  : list (string * Z) :=
  match partitioningRule r with
  | PartitioningRuleByUser =>
      (if ignore_original then [] else o)
      ++ ((fun tw => (screen_name tw, tweet_id tw)) <$> reports)
  | _ => o
  end.

Definition demo_user_output_load (user dir : string) (o : list (string * Z))
  : gset Z :=
  list_to_set (snd <$> filter (fun p => p.1 = user) o).

Definition demo_date_fromisoformat (s : string) : option date :=
  if decide (s = "2024-05-01"%string) then Some (Date 2024 5 1) else None.

#[export] Instance lib : Chalicelib := {|
  S3Bucket := "bucket";
  SettingsDir := "settings";
  LatestTweetIDFile := "latest_tweet_id";
  CensoredAccountsFile := "censored_accounts";
  TweetStorageDir := "tweets";
  ProcessorOutputDir := "outputs";
  CloudfrontDistributionId := "E123";
  RunReport := TweetCopy;
  Feed := list TweetCopy;
  CensoredAccounts := list string;
  CensoredObject := list string;
  TweetObjects := list (string * list TweetCopy);
  OutputObjects := list (string * Z);
  parse_tweet := demo_parse_tweet;
  parse_url := demo_parse_url;
  agent_collect := demo_agent_collect;
  agent_get_multi := demo_agent_get_multi;
  censored_init := fun o => o;
  censored_list := fun c => c;
  censored_save := fun c _ => c;
  tweet_put := fun file tweets o => (file, tweets) :: o;
  tweet_append_tweets := fun file tweets o => o ++ [(file, tweets)];
  tweet_readall := fun cens o =>
    filter (fun tw => screen_name tw ∉ cens) (concat (snd <$> o));
  user_output_load := demo_user_output_load;
  recorder_count := fun _ reports => Z.of_nat (length reports);
  recorder_save := demo_recorder_save;
  error_recorder_save := fun _ _ _ _ o => o;
  latest_date_page_build := fun _ o => o;
  latest_month_page_build := fun _ o => o;
  date_fromisoformat := demo_date_fromisoformat
|}.

Definition tweet1 : TweetCopy :=
  {| tweet_id := 1001; screen_name := "alice";
     created_at := DateTime (Date 2024 5 1) 10 0 0; full_text := "report" |}.

Definition tweet2 : TweetCopy :=
  {| tweet_id := 1002; screen_name := "bob";
     created_at := DateTime (Date 2024 5 2) 11 30 0; full_text := "report" |}.

Definition world (f : list TweetCopy) (cur : option string) : World :=
  {| feed := f;
     now := DateTime (Date 2024 5 3) 9 8 7;
     time_text := "1714727287.5";
     randint := 77;
     latest_tweet_id_object := cur;
     censored_object := [];
     tweet_objects := [];
     output_objects := [];
     calls := [] |}.

(** A post whose text does not parse. *)
Definition tweet3 : TweetCopy :=
  {| tweet_id := 1003; screen_name := "carol";
     created_at := DateTime (Date 2024 5 3) 8 0 0; full_text := EmptyString |}.

(** Nothing upstream is newer than the cursor. *)
Definition quiet_world : World := world [tweet1] (Some "1001"%string).

(** Two posts upstream, no cursor yet. *)
Definition fresh_world : World := world [tweet2; tweet1] None.

(** Two posts in the raw log, nothing rendered. *)
Definition archive_world : World :=
  {| feed := [];
     now := DateTime (Date 2024 5 3) 9 8 7;
     time_text := "1714727287.5";
     randint := 77;
     latest_tweet_id_object := Some "1002"%string;
     censored_object := [];
     tweet_objects := [("20240503_090807.json"%string, [tweet2; tweet1])];
     output_objects := [];
     calls := [] |}.

Definition index_written (k : string) (sz : Z) : S3Event :=
  {| Records := [{| key := k; size := sz |}] |}.

Definition skip_month : RebuildEvent :=
  {| skipTargetDate := None; skipBuildDate := false; skipBuildUser := false;
     skipBuildQuest := false; skipBuildMonth := true |}.

(** A request for a post that the feed no longer returns. *)
Definition gone_url : json := JList [JString "alice/404"].

(** A request for the post that does not parse, and a world that has it
    upstream. *)
Definition unparsed_url : json := JList [JString "carol/1003"].

Definition unparsed_world : World := world [tweet3] None.

End Demo.

(** ** Further observations *)

Section MoreObservations.
Context `{Chalicelib}.

(** The two halves of the loop of [parse_tweets], each on its own. *)
Definition parsed_report (tw : TweetCopy) : option RunReport :=
  match parse_tweet tw with
  | inl report => Some report
  | inr _ => None
  end.

Definition parse_error (tw : TweetCopy) : option ParseErrorTweet :=
  match parse_tweet tw with
  | inl _ => None
  | inr msg => Some {| tweet := tw; error_message := msg |}
  end.

(** [d[k]] for a dict built by [dict_append], the empty list when [k] is
    not a key. *)
Fixpoint dict_get {K V} `{EqDecision K} (d : list (K * list V)) (k : K)
  : list V :=
  match d with
  | [] => []
  | (k', vs) :: rest => if decide (k' = k) then vs else dict_get rest k
  end.

(** The date [split_tweets_by_date] files a tweet under. *)
Definition posted_on (tw : TweetCopy) : date := dt_date (created_at tw).

(** What a save of the fan-out may carry: the caller's [ignore_original]
    everywhere, and [force] on the quest list alone. *)
Definition fanout_flags (ignore_original : bool) (c : Call) : Prop :=
  match c with
  | RecorderSave r _ force ign =>
      ign = ignore_original
      /\ (force = true <->
          partitioningRule r = PartitioningRuleByQuestList ignore_original)
  | ErrorPageRecorderSave _ _ force ign =>
      ign = ignore_original /\ force = false
  | _ => True
  end.

(** The calls of [for dt, tweets in tweets_by_date.items()] in
    [recollect_tweets]. *)
Definition recollect_date_calls (entries : list (date * list TweetCopy))
  : list Call :=
  entries ≫= fun entry =>
    TweetRepositoryAppendTweets (strftime_Ymd_000000 entry.1 +:+ ".json") entry.2
    :: fanout_calls (parse_tweets entry.2).1 (parse_tweets entry.2).2
         (Date 2000 1 1) false.

(** The appends to the raw log among some calls: file and tweets. *)
Definition appended (cs : list Call) : list (string * list TweetCopy) :=
  omap (fun c =>
          match c with
          | TweetRepositoryAppendTweets file tweets => Some (file, tweets)
          | _ => None
          end) cs.

(** The calls [rebuild_outputs] may issue: it loads the exclusion set and
    the raw history and renders. *)
Definition rebuild_call (c : Call) : bool :=
  match c with
  | CensoredAccountsInit _ | CensoredAccountsList
  | TweetRepositoryReadall _ => true
  | c => render_call c
  end.

Definition load_call (c : Call) : bool :=
  match c with
  | UserOutputRepositoryLoad _ => true
  | _ => false
  end.

(** The cursor object is absent or holds ASCII text. *)
Definition ascii_cursor (w : World) : Prop :=
  match latest_tweet_id_object w with
  | Some s => Py.is_ascii s = true
  | None => True
  end.

(** [i] is not a scheduled run. *)
Definition unscheduled (i : Invocation) : bool :=
  match i with
  | Scheduled => false
  | _ => true
  end.

(** Dates and times whose [strftime] fields have their usual width. *)
Definition four_digit_year (d : date) : Prop :=
  1000 <= year d <= 9999 /\ 1 <= month d <= 12 /\ 1 <= day d <= 31.

Definition clock_time (t : datetime) : Prop :=
  four_digit_year (dt_date t)
  /\ 0 <= hour t <= 23 /\ 0 <= minute t <= 59 /\ 0 <= second t <= 59.

End MoreObservations.

Module DemoMore.

(** A third post, of the same day as [Demo.tweet1]. *)
Definition tweet4 : TweetCopy :=
  {| tweet_id := 1004; screen_name := "alice";
     created_at := DateTime (Date 2024 5 1) 23 59 59; full_text := "report" |}.

(** A rebuild whose skip-target date does not parse. *)
Definition bad_date : RebuildEvent :=
  {| skipTargetDate := Some "yesterday"%string; skipBuildDate := false;
     skipBuildUser := false; skipBuildQuest := false; skipBuildMonth := false |}.

(** A rebuild with an empty skip-target date. *)
Definition empty_date : RebuildEvent :=
  {| skipTargetDate := Some EmptyString; skipBuildDate := true;
     skipBuildUser := false; skipBuildQuest := true; skipBuildMonth := false |}.

(** The cursor object holds text that is not an integer. *)
Definition garbled_world : World :=
  Demo.world [Demo.tweet1] (Some "10x01"%string).

(** A request for the two posts of [Demo.fresh_world]. *)
Definition two_urls : list json := [JString "alice/1001"; JString "bob/1002"].

End DemoMore.

(** * Properties *)

(** ** Python built-ins *)

Example int_plain : Py.int "1234567890123456789" = Some 1234567890123456789.
Proof. reflexivity. Qed.

Example int_spaces_sign : Py.int " -1_000
" = Some (-1000).
Proof. reflexivity. Qed.

Example int_separator_not_skipped :
  Py.int (String (ascii_of_nat 28) "5") = None
  /\ Py.int (String (ascii_of_nat 31) "5") = None
  /\ Py.int (String (ascii_of_nat 11) (String (ascii_of_nat 12) "5")) = Some 5.
Proof. repeat split; reflexivity. Qed.

Example is_ascii_examples :
  Py.is_ascii "10x01" = true
  /\ Py.is_ascii (String (ascii_of_nat 255) EmptyString) = false
  /\ Py.is_ascii (String (ascii_of_nat 194) (String (ascii_of_nat 160) "5"))
     = false.
Proof. repeat split; reflexivity. Qed.

Example int_empty : Py.int EmptyString = None.
Proof. reflexivity. Qed.

Example int_bad_underscore : Py.int "1__0" = None /\ Py.int "_1" = None /\ Py.int "1_" = None.
Proof. repeat split; reflexivity. Qed.

Example str_examples :
  Py.str 0 = "0"%string /\ Py.str 1305 = "1305"%string /\ Py.str (-42) = "-42"%string.
Proof. repeat split; reflexivity. Qed.

Example rfind_examples :
  Py.rfind "/a/b/index.html" "/" = 4 /\ Py.rfind "abc" "/" = -1.
Proof. split; reflexivity. Qed.

Example slice_examples :
  Py.slice_to "/a/b/index.html" 5 = "/a/b/"%string /\ Py.slice_to "abc" 0 = EmptyString.
Proof. split; reflexivity. Qed.

Example endswith_examples :
  Py.endswith "/a/index.html" "/index.html" = true
  /\ Py.endswith "/aindex.html" "/index.html" = false
  /\ Py.endswith "x" "/index.html" = false.
Proof. repeat split; reflexivity. Qed.

Example pad_examples : Py.pad 2 7 = "07"%string /\ Py.pad 4 2024 = "2024"%string.
Proof. split; reflexivity. Qed.

Section PyFacts.
Import Py.

Lemma digit_char_facts n :
  0 <= n < 10 ->
  is_digit (digit_char n) = true
  /\ digit_val (digit_char n) = n
  /\ is_space (digit_char n) = false.
Proof.
  intros Hn.
  assert (Hall : Forall (fun d =>
            is_digit (digit_char d) = true
            /\ digit_val (digit_char d) = d
            /\ is_space (digit_char d) = false) (seqZ 0 10))
    by (repeat constructor).
  rewrite Forall_forall in Hall. apply Hall, elem_of_seqZ. lia.
Qed.

Lemma string_app_assoc (a b c : string) : (a +:+ b) +:+ c = a +:+ (b +:+ c).
Proof.
  induction a as [|x a IH]; [reflexivity|].
  change (String x ((a +:+ b) +:+ c) = String x (a +:+ (b +:+ c))).
  by rewrite IH.
Qed.

Lemma string_app_nil_r (a : string) : a +:+ EmptyString = a.
Proof.
  induction a as [|x a IH]; [reflexivity|].
  change (String x (a +:+ EmptyString) = String x a). by rewrite IH.
Qed.

Lemma string_app_cons (x : ascii) (a b : string) :
  String x a +:+ b = String x (a +:+ b).
Proof. reflexivity. Qed.

Lemma string_app_nil_l (a : string) : EmptyString +:+ a = a.
Proof. reflexivity. Qed.

Lemma string_app_length (a b : string) :
  String.length (a +:+ b) = (String.length a + String.length b)%nat.
Proof.
  induction a as [|x a IH]; [reflexivity|].
  rewrite string_app_cons. cbn [String.length]. by rewrite IH.
Qed.

(** Reading back the digits that [str] prints yields the number. *)
Lemma int_digits_str_digits fuel :
  forall n st rest,
    0 <= n < 2 ^ Z.of_nat fuel ->
    (0 < fuel)%nat ->
    int_digits st 0 (str_digits fuel n +:+ rest) = int_digits LitDigit n rest.
Proof.
  induction fuel as [|fuel IH]; intros n st rest Hn Hf; [lia|].
  cbn [str_digits]. destruct (Z.ltb_spec n 10) as [Hlt|Hge].
  - destruct (digit_char_facts n) as (Hd & Hv & _); [lia|].
    rewrite string_app_cons. cbn [int_digits]. rewrite Hd, Hv.
    f_equal.
  - assert (Hq : 0 <= n / 10 < 2 ^ Z.of_nat fuel).
    { split; [apply Z.div_pos; lia|].
      apply Z.div_lt_upper_bound; [lia|].
      rewrite Nat2Z.inj_succ, Z.pow_succ_r in Hn by lia. lia. }
    assert (Hfuel : (0 < fuel)%nat).
    { destruct fuel; [|lia]. cbn in Hn. lia. }
    destruct (digit_char_facts (n mod 10)) as (Hd & Hv & _).
    { apply Z.mod_pos_bound. lia. }
    rewrite string_app_assoc, string_app_cons.
    rewrite IH by assumption.
    cbn [int_digits]. rewrite Hd, Hv. f_equal.
    pose proof (Z.div_mod n 10). lia.
Qed.

Lemma str_nonneg_digits n :
  0 <= n -> int_digits LitStart 0 (str_nonneg n) = Some n.
Proof.
  intros Hn. unfold str_nonneg.
  rewrite <- (string_app_nil_r (str_digits _ n)).
  rewrite int_digits_str_digits; [reflexivity| |lia].
  split; [lia|].
  destruct (Z.eq_dec n 0) as [->|Hne]; [reflexivity|].
  rewrite Nat2Z.inj_succ, Z2Nat.id by apply Z.log2_nonneg.
  apply Z.log2_spec. lia.
Qed.

(** The first and the last character of what [str_digits] prints. *)
Lemma str_digits_shape fuel n :
  0 <= n -> (0 < fuel)%nat ->
  exists a r b, str_digits fuel n = String a r
    /\ str_digits fuel n = b +:+ String (digit_char (n mod 10)) EmptyString
    /\ is_space a = false.
Proof.
  revert n. induction fuel as [|fuel IH]; intros n Hn Hf; [lia|].
  cbn [str_digits]. destruct (Z.ltb_spec n 10) as [Hlt|Hge].
  - destruct (digit_char_facts n) as (_ & _ & Hs); [lia|].
    exists (digit_char n), EmptyString, EmptyString.
    rewrite Z.mod_small by lia. repeat split; [reflexivity..|done].
  - destruct fuel as [|fuel].
    + exists (digit_char (n mod 10)), EmptyString, EmptyString.
      destruct (digit_char_facts (n mod 10)) as (_ & _ & Hs);
        [apply Z.mod_pos_bound; lia|].
      repeat split; [reflexivity..|done].
    + destruct (IH (n / 10)) as (a & r & b & Ha & _ & Hs);
        [apply Z.div_pos; lia | lia |].
      rewrite Ha.
      exists a, (r +:+ String (digit_char (n mod 10)) EmptyString), (String a r).
      repeat split; [reflexivity..|done].
Qed.

Lemma lstrip_nonspace a r : is_space a = false -> lstrip (String a r) = String a r.
Proof. intros Ha. cbn. by rewrite Ha. Qed.

Lemma rstrip_nonspace_last b a :
  is_space a = false ->
  rstrip (b +:+ String a EmptyString) = b +:+ String a EmptyString.
Proof.
  intros Ha. induction b as [|x b IH].
  - rewrite string_app_nil_l. cbn. by rewrite Ha.
  - rewrite string_app_cons. cbn [rstrip]. rewrite IH.
    destruct b; reflexivity.
Qed.

Lemma lstrip_str_nonneg n : 0 <= n -> lstrip (str_nonneg n) = str_nonneg n.
Proof.
  intros Hn. unfold str_nonneg.
  destruct (str_digits_shape (S (Z.to_nat (Z.log2 n))) n)
    as (a & r & b & Ha & _ & Hs); [lia | lia |].
  rewrite Ha. by apply lstrip_nonspace.
Qed.

Lemma rstrip_str_nonneg n : 0 <= n -> rstrip (str_nonneg n) = str_nonneg n.
Proof.
  intros Hn. unfold str_nonneg.
  destruct (str_digits_shape (S (Z.to_nat (Z.log2 n))) n)
    as (a & r & b & _ & Hb & _); [lia | lia |].
  rewrite Hb. apply rstrip_nonspace_last.
  apply digit_char_facts, Z.mod_pos_bound. lia.
Qed.

Lemma str_nonneg_nonempty n : 0 <= n -> str_nonneg n <> EmptyString.
Proof.
  intros Hn. unfold str_nonneg.
  destruct (str_digits_shape (S (Z.to_nat (Z.log2 n))) n)
    as (a & r & b & Ha & _ & _); [lia | lia |].
  by rewrite Ha.
Qed.

Lemma rstrip_cons_nonempty a r :
  rstrip r <> EmptyString -> rstrip (String a r) = String a (rstrip r).
Proof. intros Hr. cbn [rstrip]. destruct (rstrip r); [done|reflexivity]. Qed.

(** A text that reads as digits carries no sign. *)
Lemma int_of_digits s v :
  strip s = s -> int_digits LitStart 0 s = Some v -> int s = Some v.
Proof.
  intros Hs Hv. unfold int. rewrite Hs.
  destruct s as [|a r]; [done|].
  destruct (Ascii.eqb_spec a "-") as [->|Hm]; [cbn in Hv; done|].
  destruct (Ascii.eqb_spec a "+") as [->|Hp]; [cbn in Hv; done|].
  destruct a as [[] [] [] [] [] [] [] []]; try done.
Qed.

Theorem int_str n : int (str n) = Some n.
Proof.
  unfold str. destruct (Z.ltb_spec n 0) as [Hneg|Hpos].
  - unfold int, strip.
    rewrite lstrip_nonspace by reflexivity.
    rewrite rstrip_cons_nonempty
      by (rewrite rstrip_str_nonneg by lia; apply str_nonneg_nonempty; lia).
    rewrite rstrip_str_nonneg by lia.
    rewrite str_nonneg_digits by lia.
    cbn. f_equal. lia.
  - apply int_of_digits; [|apply str_nonneg_digits; lia].
    unfold strip. rewrite lstrip_str_nonneg by lia.
    apply rstrip_str_nonneg. lia.
Qed.

Lemma substring_0_app p q k :
  substring 0 (String.length p + k) (p +:+ q) = p +:+ substring 0 k q.
Proof.
  induction p as [|x p IH]; [reflexivity|].
  rewrite !string_app_cons. cbn [String.length Nat.add substring]. by rewrite IH.
Qed.

Lemma substring_0_length s : substring 0 (String.length s) s = s.
Proof.
  induction s as [|x s IH]; [reflexivity|].
  cbn [String.length substring]. by rewrite IH.
Qed.

Lemma substring_skip_app p t m :
  substring (String.length p) m (p +:+ t) = substring 0 m t.
Proof. induction p as [|x p IH]; [reflexivity|]. by rewrite string_app_cons. Qed.

Lemma substring_split s k :
  (k <= String.length s)%nat ->
  s = substring 0 k s +:+ substring k (String.length s - k) s.
Proof.
  revert k. induction s as [|x s IH]; intros k Hk.
  - destruct k; reflexivity.
  - destruct k as [|k].
    + rewrite string_app_nil_l, Nat.sub_0_r. symmetry. apply substring_0_length.
    + cbn [String.length] in *. cbn [substring Nat.sub].
      rewrite string_app_cons. f_equal. apply IH. lia.
Qed.

Lemma endswith_app p t : endswith (p +:+ t) t = true.
Proof.
  unfold endswith. rewrite string_app_length.
  apply andb_true_intro. split; [apply Nat.leb_le; lia|].
  replace (String.length p + String.length t - String.length t)%nat
    with (String.length p) by lia.
  rewrite substring_skip_app, substring_0_length. apply String.eqb_refl.
Qed.

Lemma endswith_inv s t : endswith s t = true -> exists p, s = p +:+ t.
Proof.
  unfold endswith. intros [Hle Heq]%andb_prop.
  apply Nat.leb_le in Hle. apply String.eqb_eq in Heq.
  exists (substring 0 (String.length s - String.length t) s).
  pose proof (substring_split s (String.length s - String.length t)) as Hs.
  replace (String.length s - (String.length s - String.length t))%nat
    with (String.length t) in Hs by lia.
  rewrite Heq in Hs. apply Hs. lia.
Qed.

Lemma rfind_from_app p q c i last :
  rfind_from (p +:+ q) c i last
  = rfind_from q c (i + Z.of_nat (String.length p)) (rfind_from p c i last).
Proof.
  revert i last. induction p as [|x p IH]; intros i last.
  - rewrite string_app_nil_l. cbn. by rewrite Z.add_0_r.
  - rewrite string_app_cons. cbn [rfind_from String.length]. rewrite IH.
    f_equal. lia.
Qed.

(** The slice [item[:item.rfind('/') + 1]] of a path that ends in
    [/index.html] is the path without [index.html]. *)
Lemma parent_of_index p :
  slice_to (p +:+ "/index.html") (rfind (p +:+ "/index.html") "/" + 1)
  = p +:+ "/".
Proof.
  unfold rfind. rewrite rfind_from_app. cbn [rfind_from Ascii.eqb Bool.eqb].
  unfold slice_to.
  destruct (Z.ltb_spec (0 + Z.of_nat (String.length p) + 1) 0) as [?|_]; [lia|].
  replace (Z.to_nat (0 + Z.of_nat (String.length p) + 1))
    with (String.length p + 1)%nat by lia.
  by rewrite substring_0_app.
Qed.






(** What [str] prints is ASCII. *)
Lemma digit_char_ascii d : d < 10 -> (ascii_Z (digit_char d) <? 128) = true.
Proof.
  intros Hd. unfold digit_char, ascii_Z.
  rewrite N_ascii_embedding by lia. apply Z.ltb_lt. lia.
Qed.

Lemma is_ascii_app a b : is_ascii (a +:+ b) = is_ascii a && is_ascii b.
Proof.
  induction a as [|x a IH]; [by rewrite string_app_nil_l|].
  rewrite string_app_cons. cbn [is_ascii]. by rewrite IH, andb_assoc.
Qed.

Lemma is_ascii_str_digits fuel n : is_ascii (str_digits fuel n) = true.
Proof.
  revert n. induction fuel as [|fuel IH]; intros n; [reflexivity|].
  cbn [str_digits]. destruct (Z.ltb_spec n 10) as [Hlt|Hge].
  - cbn [is_ascii]. by rewrite digit_char_ascii.
  - rewrite is_ascii_app, IH. cbn [is_ascii].
    rewrite digit_char_ascii; [done|]. apply Z.mod_pos_bound. lia.
Qed.

Lemma is_ascii_str n : is_ascii (str n) = true.
Proof.
  unfold str, str_nonneg. destruct (n <? 0).
  - cbn [is_ascii]. by rewrite is_ascii_str_digits.
  - apply is_ascii_str_digits.
Qed.

End PyFacts.

(** ** Worlds and the monad *)

Section WorldFacts.
Context `{Chalicelib}.

Lemma after_after w t o cs t' o' cs' :
  after (after w t o cs) t' o' cs' = after w t' o' (cs ++ cs').
Proof. unfold after. cbn. by rewrite app_assoc. Qed.

Lemma after_nil w : after w (tweet_objects w) (output_objects w) [] = w.
Proof. destruct w. unfold after. cbn. by rewrite app_nil_r. Qed.

Lemma feed_after w t o cs : feed (after w t o cs) = feed w.
Proof. reflexivity. Qed.

Lemma now_after w t o cs : now (after w t o cs) = now w.
Proof. reflexivity. Qed.

Lemma time_text_after w t o cs : time_text (after w t o cs) = time_text w.
Proof. reflexivity. Qed.

Lemma randint_after w t o cs : randint (after w t o cs) = randint w.
Proof. reflexivity. Qed.

Lemma latest_tweet_id_object_after w t o cs :
  latest_tweet_id_object (after w t o cs) = latest_tweet_id_object w.
Proof. reflexivity. Qed.

Lemma censored_object_after w t o cs :
  censored_object (after w t o cs) = censored_object w.
Proof. reflexivity. Qed.

Lemma tweet_objects_after w t o cs : tweet_objects (after w t o cs) = t.
Proof. reflexivity. Qed.

Lemma output_objects_after w t o cs : output_objects (after w t o cs) = o.
Proof. reflexivity. Qed.

Lemma calls_after w t o cs : calls (after w t o cs) = calls w ++ cs.
Proof. reflexivity. Qed.

Lemma cursor_after w t o cs : cursor (after w t o cs) = cursor w.
Proof. reflexivity. Qed.

Lemma new_calls_after w t o cs : new_calls w (after w t o cs) = cs.
Proof. unfold new_calls. by rewrite calls_after, drop_app_length. Qed.

Lemma bind_return {A B} (m : M A) (f : A -> M B) w a w' :
  m w = (Return a, w') -> (m ≫= f) w = f a w'.
Proof. intros Hm. unfold mbind, M_bind. by rewrite Hm. Qed.

Lemma bind_raise {A B} (m : M A) (f : A -> M B) w e w' :
  m w = (Raise e, w') -> (m ≫= f) w = (Raise e, w').
Proof. intros Hm. unfold mbind, M_bind. by rewrite Hm. Qed.

End WorldFacts.

Create Rewrite HintDb world.

#[export] Hint Rewrite @after_after @feed_after @now_after @time_text_after
  @randint_after @latest_tweet_id_object_after @censored_object_after
  @tweet_objects_after @output_objects_after @cursor_after : world.

Ltac simpl_world := autorewrite with world.

Tactic Notation "step" open_constr(lem) :=
  erewrite bind_return by apply lem; simpl_world.

(** ** The render stages *)

Section RenderFacts.
Context `{Chalicelib}.

Lemma call_run c w :
  call c w = (Return tt, rendered w (output_objects w) [c]).
Proof. reflexivity. Qed.

Lemma read_run {A} (f : World -> A) w : read f w = (Return (f w), w).
Proof. reflexivity. Qed.

Lemma update_output_objects_run f w :
  update_output_objects f w = (Return tt, rendered w (f (output_objects w)) []).
Proof.
  unfold update_output_objects, after. by rewrite app_nil_r.
Qed.

Lemma update_tweet_objects_run f w :
  update_tweet_objects f w
  = (Return tt, after w (f (tweet_objects w)) (output_objects w) []).
Proof.
  unfold update_tweet_objects, after. by rewrite app_nil_r.
Qed.

Lemma save_if_count_run r reports force ign w :
  save_if_count r reports force ign w
  = (Return tt,
     rendered w (save_outputs r reports force ign (output_objects w))
       (save_calls r reports force ign)).
Proof.
  unfold save_if_count, save_outputs, save_calls.
  destruct (decide (recorder_count r reports = 0)).
  - by rewrite after_nil.
  - step call_run. rewrite update_output_objects_run. by simpl_world.
Qed.

Lemma save_always_run r reports force ign w :
  save_always r reports force ign w
  = (Return tt,
     rendered w (recorder_save r reports force ign (output_objects w))
       [RecorderSave r reports force ign]).
Proof.
  unfold save_always. step call_run.
  rewrite update_output_objects_run. by simpl_world.
Qed.

Lemma render_date_contents_run reports d force ign w :
  render_date_contents reports d force ign w
  = (Return tt,
     rendered w (date_outputs reports d force ign (output_objects w))
       (date_calls reports d force ign)).
Proof.
  unfold render_date_contents. step save_if_count_run. step call_run.
  rewrite update_output_objects_run. simpl_world.
  unfold date_calls. by rewrite app_nil_r.
Qed.

Lemma render_user_contents_run reports d force ign w :
  render_user_contents reports d force ign w
  = (Return tt,
     rendered w (user_outputs reports d force ign (output_objects w))
       (user_calls reports d force ign)).
Proof.
  unfold render_user_contents. step save_if_count_run.
  rewrite save_if_count_run. by simpl_world.
Qed.

Lemma render_quest_contents_run reports d force ign w :
  render_quest_contents reports d force ign w
  = (Return tt,
     rendered w (quest_outputs reports d force ign (output_objects w))
       (quest_calls reports d force ign)).
Proof.
  unfold render_quest_contents. step save_if_count_run.
  rewrite save_always_run. by simpl_world.
Qed.

Lemma render_error_contents_run errors force ign w :
  render_error_contents errors force ign w
  = (Return tt,
     rendered w (error_outputs errors force ign (output_objects w))
       (error_calls errors force ign)).
Proof.
  unfold render_error_contents. step call_run.
  rewrite update_output_objects_run. by simpl_world.
Qed.

Lemma render_month_contents_run reports d force w :
  render_month_contents reports d force w
  = (Return tt,
     rendered w (month_outputs reports d force (output_objects w))
       (month_calls reports d force)).
Proof.
  unfold render_month_contents. step save_if_count_run. step call_run.
  rewrite update_output_objects_run. simpl_world.
  unfold month_calls. by rewrite app_nil_r.
Qed.

(** The fan-out of [collect_tweets] and [recollect_tweets]: the three
    stages and the error page, in this order. *)
Lemma fanout_run reports errors d ign w :
  (_ ← render_date_contents reports d false ign;
   _ ← render_user_contents reports d false ign;
   _ ← render_quest_contents reports d false ign;
   render_error_contents errors false ign) w
  = (Return tt,
     rendered w (fanout_outputs reports errors d ign (output_objects w))
       (fanout_calls reports errors d ign)).
Proof.
  step render_date_contents_run. step render_user_contents_run.
  step render_quest_contents_run.
  rewrite render_error_contents_run. simpl_world.
  unfold fanout_calls. by rewrite <- !app_assoc.
Qed.

Lemma render_contents_run reports errors d ign w :
  render_contents reports errors d ign w
  = (Return tt,
     rendered w (fanout_outputs reports errors d ign (output_objects w))
       (fanout_calls reports errors d ign)).
Proof. apply fanout_run. Qed.

End RenderFacts.

(** ** The entry points *)

Section EntryFacts.
Context `{Chalicelib}.

Lemma int_of_download w :
  Py.int (match latest_tweet_id_object w with
          | Some s => s
          | None => EmptyString
          end) = cursor w.
Proof. unfold cursor. by destruct (latest_tweet_id_object w). Qed.

(** *** [collect_tweets] *)

Lemma mret_run {A} (a : A) w : (mret a : M A) w = (Return a, w).
Proof. reflexivity. Qed.

Lemma download_latest_tweet_id_run w :
  download_latest_tweet_id w
  = (Return (match latest_tweet_id_object w with
             | Some s => s
             | None => EmptyString
             end),
     rendered w (output_objects w) [S3DownloadFileobj latest_tweet_id_file_key]).
Proof. unfold download_latest_tweet_id. step call_run. by step read_run. Qed.

Lemma new_censored_accounts_run w :
  new_censored_accounts w
  = (Return (censored_init (censored_object w)),
     rendered w (output_objects w)
       [CensoredAccountsInit censored_accounts_filepath]).
Proof. unfold new_censored_accounts. step call_run. by step read_run. Qed.

Lemma collect_tweets_empty w cens :
  collected w = ([], cens) ->
  collect_tweets w
  = (Return tt, rendered w (output_objects w) (collect_prologue w)).
Proof.
  unfold collected. intros Hc. unfold collect_tweets.
  step download_latest_tweet_id_run. step new_censored_accounts_run.
  step read_run. step call_run.
  rewrite int_of_download, Hc. reflexivity.
Qed.

Lemma collect_tweets_nonempty w tw rest cens :
  collected w = (tw :: rest, cens) ->
  let tweets := tw :: rest in
  let file := strftime_Ymd_HMS (now w) +:+ ".json" in
  let pe := parse_tweets tweets in
  let text := Py.str (tweet_id tw) in
  collect_tweets w
  = (Return tt,
     {| feed := feed w; now := now w; time_text := time_text w;
        randint := randint w;
        latest_tweet_id_object := Some text;
        censored_object := censored_save cens (censored_object w);
        tweet_objects := tweet_put file tweets (tweet_objects w);
        output_objects :=
          fanout_outputs pe.1 pe.2 (Date 2000 1 1) false (output_objects w);
        calls :=
          calls w
          ++ collect_prologue w
          ++ [TweetRepositoryPut file tweets]
          ++ fanout_calls pe.1 pe.2 (Date 2000 1 1) false
          ++ [S3UploadFileobj latest_tweet_id_file_key text;
              CensoredAccountsSave] |}).
Proof.
  intros Hc tweets file pe text. unfold collected in Hc. unfold collect_tweets.
  step download_latest_tweet_id_run. step new_censored_accounts_run.
  step read_run. step call_run.
  rewrite int_of_download, Hc. cbv beta iota.
  step read_run. step call_run. step update_tweet_objects_run.
  fold tweets file. subst pe. destruct (parse_tweets tweets) as [reports errors].
  step render_date_contents_run. step render_user_contents_run.
  step render_quest_contents_run. step render_error_contents_run.
  step call_run.
  unfold set_latest_tweet_id_object, update_censored_object, call, after,
    mbind, M_bind, collect_prologue, fanout_calls.
  cbn [feed now time_text randint latest_tweet_id_object censored_object
       tweet_objects output_objects calls fst snd].
  rewrite <- !app_assoc. reflexivity.
Qed.

(** *** [recollect_tweets] *)

Lemma find_candidates_run items :
  forall candidates w,
    find_candidates items candidates w
    = (Return (candidates ++ candidates_of (output_objects w) items),
       rendered w (output_objects w) (load_calls items)).
Proof.
  induction items as [|[user targets] items IH]; intros candidates w.
  - cbn. by rewrite app_nil_r, after_nil.
  - cbn [find_candidates]. step call_run. step read_run.
    rewrite IH. simpl_world. cbn. by rewrite <- app_assoc.
Qed.

Lemma recollect_one_date_run dt tweets w :
  let file := strftime_Ymd_000000 dt +:+ ".json" in
  let pe := parse_tweets tweets in
  recollect_one_date (dt, tweets) w
  = (Return tt,
     after w (tweet_append_tweets file tweets (tweet_objects w))
       (fanout_outputs pe.1 pe.2 (Date 2000 1 1) false (output_objects w))
       (TweetRepositoryAppendTweets file tweets
        :: fanout_calls pe.1 pe.2 (Date 2000 1 1) false)).
Proof.
  intros file pe. unfold recollect_one_date.
  step call_run. step update_tweet_objects_run. fold file.
  subst pe. destruct (parse_tweets tweets) as [reports errors].
  rewrite fanout_run. by simpl_world.
Qed.

Lemma save_calls_render r reports force ign :
  Forall (fun c => render_call c = true) (save_calls r reports force ign).
Proof. unfold save_calls. case_decide; repeat constructor. Qed.

Lemma save_calls_month r reports force ign :
  partitioningRule r <> PartitioningRuleByMonth ->
  Forall (fun c => month_call c = false) (save_calls r reports force ign).
Proof.
  intros Hr. unfold save_calls. case_decide; repeat constructor.
  cbn. by destruct (partitioningRule r).
Qed.

Lemma fanout_calls_render reports errors d ign :
  Forall (fun c => render_call c = true) (fanout_calls reports errors d ign).
Proof.
  unfold fanout_calls, date_calls, user_calls, quest_calls, error_calls.
  rewrite !Forall_app. repeat split;
    first [apply save_calls_render | repeat constructor].
Qed.

Lemma fanout_calls_month reports errors d ign :
  Forall (fun c => month_call c = false) (fanout_calls reports errors d ign).
Proof.
  unfold fanout_calls, date_calls, user_calls, quest_calls, error_calls.
  rewrite !Forall_app. repeat split;
    first [by apply save_calls_month | repeat constructor].
Qed.

Lemma fanout_calls_recollect reports errors d ign :
  Forall (fun c => recollect_call c = true) (fanout_calls reports errors d ign).
Proof.
  pose proof (fanout_calls_render reports errors d ign) as Hr.
  pose proof (fanout_calls_month reports errors d ign) as Hm.
  rewrite Forall_forall in *. intros c Hc.
  specialize (Hr c Hc). specialize (Hm c Hc).
  destruct c; try done; cbn in *. by destruct (partitioningRule r).
Qed.

Lemma recollect_dates_run entries :
  forall w, exists t o cs,
    for_each entries recollect_one_date w = (Return tt, after w t o cs)
    /\ Forall (fun c => recollect_call c = true) cs.
Proof.
  induction entries as [|[dt tweets] entries IH]; intros w.
  - exists (tweet_objects w), (output_objects w), [].
    cbn. by rewrite after_nil.
  - cbn [for_each].
    erewrite bind_return by apply recollect_one_date_run.
    cbv zeta.
    destruct (IH (after w
      (tweet_append_tweets (strftime_Ymd_000000 dt +:+ ".json") tweets (tweet_objects w))
      (fanout_outputs (parse_tweets tweets).1 (parse_tweets tweets).2
         (Date 2000 1 1) false (output_objects w))
      (TweetRepositoryAppendTweets (strftime_Ymd_000000 dt +:+ ".json") tweets
       :: fanout_calls (parse_tweets tweets).1 (parse_tweets tweets).2
            (Date 2000 1 1) false))) as (t & o & cs & -> & Hcs).
    rewrite after_after. eexists _, _, _. split; [reflexivity|].
    apply Forall_app. split; [|done].
    constructor; [done|apply fanout_calls_recollect].
Qed.

Lemma dict_append_elem {K V} `{EqDecision K} (d : list (K * list V)) k v k' vs x :
  (k', vs) ∈ dict_append d k v -> x ∈ vs ->
  (exists vs0, (k', vs0) ∈ d /\ x ∈ vs0) \/ (k' = k /\ x = v).
Proof.
  induction d as [|[k0 vs0] d IH]; cbn [dict_append]; intros Hin Hx.
  - apply list_elem_of_singleton in Hin. injection Hin as -> ->.
    apply list_elem_of_singleton in Hx. by right.
  - case_decide as Hk.
    + apply elem_of_cons in Hin as [Heq|Hin].
      * injection Heq as -> ->. apply elem_of_app in Hx as [Hx|Hx].
        -- left. exists vs0. split; [left|done].
        -- apply list_elem_of_singleton in Hx. by right.
      * left. exists vs. split; [by right|done].
    + apply elem_of_cons in Hin as [Heq|Hin].
      * injection Heq as -> ->. left. exists vs0. split; [left|done].
      * destruct (IH Hin Hx) as [(vs1 & Hd & Hx1)|?]; [|by right].
        left. exists vs1. split; [by right|done].
Qed.

Lemma parse_multi_from_elem urls :
  forall d d' user targets target,
    parse_multi_from d urls = Some d' ->
    (user, targets) ∈ d' -> target ∈ targets ->
    (exists targets0, (user, targets0) ∈ d /\ target ∈ targets0)
    \/ (exists url, url ∈ urls /\ parse_url url = Some (user, target)).
Proof.
  induction urls as [|url urls IH]; intros d d' user targets target Hp Hin Ht.
  - cbn in Hp. injection Hp as <-. left. by exists targets.
  - cbn [parse_multi_from] in Hp.
    destruct (parse_url url) as [[u t]|] eqn:Hu; [|done].
    destruct (IH _ _ _ _ _ Hp Hin Ht) as [(ts0 & Hd & Ht0)|(url' & Hin' & Hp')].
    + destruct (dict_append_elem _ _ _ _ _ _ Hd Ht0) as [?|[-> ->]]; [by left|].
      right. exists url. split; [left|done].
    + right. exists url'. split; [by right|done].
Qed.

Lemma parse_multi_elem urls d user targets target :
  parse_multi urls = Some d ->
  (user, targets) ∈ d -> target ∈ targets ->
  exists url, url ∈ urls /\ parse_url url = Some (user, target).
Proof.
  intros Hp Hin Ht.
  destruct (parse_multi_from_elem _ _ _ _ _ _ Hp Hin Ht) as [(ts & Hd & _)|?];
    [|done].
  by apply elem_of_nil in Hd.
Qed.

Lemma parse_multi_from_unparseable urls :
  forall d url, url ∈ urls -> parse_url url = None ->
    parse_multi_from d urls = None.
Proof.
  induction urls as [|u urls IH]; intros d url Hin Hu.
  - by apply elem_of_nil in Hin.
  - cbn [parse_multi_from]. apply elem_of_cons in Hin as [<-|Hin].
    + by rewrite Hu.
    + destruct (parse_url u) as [[user target]|]; [|done]. by eapply IH.
Qed.

Lemma parse_multi_from_parseable urls :
  forall d, (forall url, url ∈ urls -> is_Some (parse_url url)) ->
    is_Some (parse_multi_from d urls).
Proof.
  induction urls as [|u urls IH]; intros d Hall; [by eexists|].
  cbn [parse_multi_from].
  destruct (Hall u) as [[user target] ->]; [left|].
  apply IH. intros url Hin. apply Hall. by right.
Qed.

Lemma missing_targets_nil user_reports targets :
  (forall target, target ∈ targets -> target ∈ user_reports) ->
  missing_targets user_reports targets = [].
Proof.
  intros Hall. unfold missing_targets.
  induction targets as [|t targets IH]; [done|].
  rewrite filter_cons. case_decide as Ht.
  - destruct Ht. apply Hall. left.
  - apply IH. intros target Hin. apply Hall. by right.
Qed.

Lemma candidates_of_nil o items :
  (forall user targets target,
     (user, targets) ∈ items -> target ∈ targets ->
     target ∈ user_output_load user (ProcessorOutputDir +:+ "/user") o) ->
  candidates_of o items = [].
Proof.
  intros Hall. unfold candidates_of.
  induction items as [|[user targets] items IH]; [done|].
  rewrite bind_cons, missing_targets_nil, IH; [done| |].
  - intros u ts t Hin. apply Hall. by right.
  - intros t Ht. eapply Hall; [left|done].
Qed.

(** The three ways [recollect_tweets] returns success, and the rejections. *)
Lemma recollect_tweets_rejected data w :
  malformed data ->
  recollect_tweets data w = (Raise (BadRequestError "wrong format"), w).
Proof.
  destruct data as [| | | |urls|]; try done.
  intros [Hlen|(url & Hin & Hu)]; unfold recollect_tweets.
  - by case_decide.
  - case_decide; [done|]. unfold parse_multi.
    by rewrite (parse_multi_from_unparseable _ _ _ Hin Hu).
Qed.

Lemma recollect_tweets_no_candidates urls d w :
  Z.of_nat (length urls) <= 20 ->
  parse_multi urls = Some d ->
  candidates_of (output_objects w) d = [] ->
  recollect_tweets (JList urls) w
  = (Return status_ok, rendered w (output_objects w) (load_calls d)).
Proof.
  intros Hlen Hd Hc. unfold recollect_tweets.
  case_decide; [lia|]. rewrite Hd.
  step find_candidates_run. rewrite Hc. reflexivity.
Qed.

Lemma recollect_tweets_frame data w :
  exists t o cs,
    (recollect_tweets data w).2 = after w t o cs
    /\ Forall (fun c => cursor_or_exclusion_call c = false) cs.
Proof.
  assert (Hsame : exists t o cs, w = after w t o cs
            /\ Forall (fun c => cursor_or_exclusion_call c = false) cs).
  { exists (tweet_objects w), (output_objects w), [].
    by rewrite after_nil. }
  assert (Hloads : forall d,
    Forall (fun c => cursor_or_exclusion_call c = false) (load_calls d)).
  { intros d. unfold load_calls. by apply Forall_fmap, Forall_true. }
  destruct data as [| | | |urls|]; try exact Hsame.
  unfold recollect_tweets. case_decide; [exact Hsame|].
  destruct (parse_multi urls) as [d|]; [|exact Hsame].
  step find_candidates_run.
  destruct ([] ++ candidates_of (output_objects w) d) as [|c cands].
  { eexists _, _, _. split; [reflexivity|apply Hloads]. }
  step read_run. step call_run.
  destruct (agent_get_multi (feed w) (c :: cands)) as [|p tweet_dict].
  { eexists _, _, _. split; [reflexivity|].
    apply Forall_app. split; [apply Hloads|by repeat constructor]. }
  destruct (recollect_dates_run (split_tweets_by_date (snd <$> p :: tweet_dict))
              (rendered w (output_objects w)
                 (load_calls d ++ [AgentGetMulti (c :: cands)])))
    as (t & o & cs & Hrun & Hcs).
  step Hrun. cbn [snd mret M_ret].
  eexists _, _, _. split; [reflexivity|].
  rewrite !Forall_app. repeat split; [apply Hloads|by repeat constructor|].
  eapply Forall_impl; [exact Hcs|]. intros call. by destruct call.
Qed.

(** *** [rebuild_outputs] *)

Lemma rebuild_outputs_raises event w :
  rebuild_target event = None ->
  rebuild_outputs event w = (Raise ValueError, w).
Proof.
  unfold rebuild_target, rebuild_outputs. intros Hd.
  destruct (skipTargetDate event) as [[|a r]|]; try done.
  by rewrite Hd.
Qed.

Lemma rebuild_outputs_run event w d :
  rebuild_target event = Some d ->
  let pe := parse_tweets (rebuild_tweets w) in
  rebuild_outputs event w
  = (Return tt,
     rendered w
       (fanout_outputs pe.1 pe.2 d true
          (guarded_outputs event pe.1 d (output_objects w)))
       (rebuild_prologue w
        ++ guarded_calls event pe.1 d
        ++ fanout_calls pe.1 pe.2 d true)).
Proof.
  intros Hd pe. unfold rebuild_outputs.
  assert (Hfirst : forall w0,
    match skipTargetDate event with
    | Some (String a r) =>
        match date_fromisoformat (String a r) with
        | Some d => mret d
        | None => raise ValueError
        end
    | _ => mret (Date 2000 1 1)
    end w0 = (Return d, w0)).
  { intros w0. unfold rebuild_target in Hd.
    destruct (skipTargetDate event) as [[|a r]|]; try by injection Hd as <-.
    by rewrite Hd. }
  step Hfirst. step new_censored_accounts_run.
  step call_run. step call_run. step read_run.
  fold (rebuild_tweets w). fold pe.
  destruct pe as [reports errors].
  unfold guarded_calls, guarded_outputs.
  destruct (skipBuildDate event), (skipBuildUser event),
    (skipBuildQuest event), (skipBuildMonth event);
    repeat first
      [ step render_date_contents_run
      | step render_user_contents_run
      | step render_quest_contents_run
      | step render_month_contents_run
      | step (@mret_run unit) ];
    rewrite render_contents_run; simpl_world;
    unfold rebuild_prologue; rewrite <- ?app_assoc; reflexivity.
Qed.

(** *** [invalidate_cloudfront_cache] *)

Lemma generate_caller_reference_run w :
  generate_caller_reference w
  = (Return ("harvest-" +:+ time_text w +:+ "-" +:+ Py.str (randint w)), w).
Proof. reflexivity. Qed.

Lemma invalidate_not_index record rest w :
  Py.endswith ("/" +:+ key record) "/index.html" = false ->
  invalidate_cloudfront_cache {| Records := record :: rest |} w = (Return tt, w).
Proof. intros He. unfold invalidate_cloudfront_cache. cbn. by rewrite He. Qed.

Lemma invalidate_small record rest w :
  size record < 600 ->
  invalidate_cloudfront_cache {| Records := record :: rest |} w = (Return tt, w).
Proof.
  intros Hs. unfold invalidate_cloudfront_cache. cbn.
  destruct (Py.endswith _ _); [|done]. cbn.
  by destruct (Z.ltb_spec (size record) 600); [|lia].
Qed.

Lemma invalidate_issued record rest w :
  Py.endswith ("/" +:+ key record) "/index.html" = true ->
  600 <= size record ->
  exists p,
    "/" +:+ key record = p +:+ "/index.html"
    /\ invalidate_cloudfront_cache {| Records := record :: rest |} w
       = (Return tt,
          rendered w (output_objects w)
            [CloudfrontCreateInvalidation CloudfrontDistributionId 1
               [p +:+ "/"]
               ("harvest-" +:+ time_text w +:+ "-" +:+ Py.str (randint w))]).
Proof.
  intros He Hs. destruct (endswith_inv _ _ He) as [p Hp]. exists p.
  split; [done|]. unfold invalidate_cloudfront_cache. cbn [Records].
  rewrite He. cbn [negb].
  destruct (Z.ltb_spec (size record) 600); [lia|].
  rewrite Hp, parent_of_index.
  step generate_caller_reference_run. apply call_run.
Qed.

End EntryFacts.

(** ** Invocations and the Cursor *)

Section CursorFacts.
Context `{Chalicelib}.

Lemma cursor_le_refl a : cursor_le a a.
Proof. destruct a; cbn; [lia|done]. Qed.

Lemma cursor_le_trans a b c : cursor_le a b -> cursor_le b c -> cursor_le a c.
Proof. destruct a, b, c; cbn; try done; lia. Qed.

Lemma invalidate_frame event w :
  exists cs,
    (invalidate_cloudfront_cache event w).2
    = rendered w (output_objects w) cs.
Proof.
  assert (Hsame : exists cs, w = rendered w (output_objects w) cs).
  { exists []. by rewrite after_nil. }
  destruct event as [[|record rest]]; [exact Hsame|].
  destruct (Py.endswith ("/" +:+ key record) "/index.html") eqn:He.
  - destruct (Z.lt_ge_cases (size record) 600) as [Hs|Hs].
    + by rewrite invalidate_small.
    + destruct (invalidate_issued record rest w He Hs) as (p & _ & ->).
      by eexists.
  - by rewrite invalidate_not_index.
Qed.

Lemma rebuild_frame event w :
  exists o cs, (rebuild_outputs event w).2 = rendered w o cs.
Proof.
  destruct (rebuild_target event) as [d|] eqn:Hd.
  - rewrite (rebuild_outputs_run _ _ _ Hd). by eexists _, _.
  - rewrite (rebuild_outputs_raises _ _ Hd).
    exists (output_objects w), []. by rewrite after_nil.
Qed.

Lemma collect_tweets_cursor_le w :
  returns_only_newer -> cursor_le (cursor w) (cursor (collect_tweets w).2).
Proof.
  intros Hnewer. destruct (collected w) as [[|tw rest] cens] eqn:Hc.
  - rewrite (collect_tweets_empty _ _ Hc). cbn [snd].
    rewrite cursor_after. apply cursor_le_refl.
  - rewrite (collect_tweets_nonempty _ _ _ _ Hc). cbn [snd].
    unfold cursor at 2. cbn [latest_tweet_id_object]. rewrite int_str.
    destruct (cursor w) as [c|] eqn:Hcur; [|done]. cbn.
    apply Z.lt_le_incl, (Hnewer (feed w) 5 c (censored_init (censored_object w))).
    unfold collected in Hc. rewrite Hcur in Hc. rewrite Hc. left.
Qed.

Lemma run_cursor_le i w :
  returns_only_newer -> cursor_le (cursor w) (cursor (run i w)).
Proof.
  intros Hnewer. destruct i as [|data|event|event|f t txt r]; cbn [run].
  - by apply collect_tweets_cursor_le.
  - destruct (recollect_tweets_frame data w) as (t & o & cs & -> & _).
    rewrite cursor_after. apply cursor_le_refl.
  - destruct (rebuild_frame event w) as (o & cs & ->).
    rewrite cursor_after. apply cursor_le_refl.
  - destruct (invalidate_frame event w) as (cs & ->).
    rewrite cursor_after. apply cursor_le_refl.
  - apply cursor_le_refl.
Qed.

Lemma run_all_cursor_le invs :
  returns_only_newer -> forall w, cursor_le (cursor w) (cursor (run_all invs w)).
Proof.
  intros Hnewer. induction invs as [|i invs IH]; intros w.
  - apply cursor_le_refl.
  - cbn. eapply cursor_le_trans; [by apply run_cursor_le|apply IH].
Qed.

Lemma newest_first_head tw rest o :
  newest_first (tw :: rest) -> o ∈ tw :: rest -> tweet_id o <= tweet_id tw.
Proof.
  intros [Hall _] [->|Hin]%elem_of_cons; [lia|].
  rewrite Forall_forall in Hall. by apply Hall.
Qed.

Lemma month_calls_month reports d force :
  Exists (fun c => month_call c = true) (month_calls reports d force).
Proof. unfold month_calls. apply Exists_app. right. by left. Qed.

Lemma date_calls_month reports d force ign :
  Forall (fun c => month_call c = false) (date_calls reports d force ign).
Proof.
  unfold date_calls. apply Forall_app. split;
    [by apply save_calls_month | by repeat constructor].
Qed.

Lemma user_calls_month reports d force ign :
  Forall (fun c => month_call c = false) (user_calls reports d force ign).
Proof. unfold user_calls. apply Forall_app. split; by apply save_calls_month. Qed.

Lemma quest_calls_month reports d force ign :
  Forall (fun c => month_call c = false) (quest_calls reports d force ign).
Proof.
  unfold quest_calls. apply Forall_app. split;
    [by apply save_calls_month | by repeat constructor].
Qed.

Lemma not_month_no_month cs :
  Forall (fun c => month_call c = false) cs ->
  ~ Exists (fun c => month_call c = true) cs.
Proof.
  intros Hall Hex. apply Exists_exists in Hex as (c & Hin & Hc).
  rewrite Forall_forall in Hall. specialize (Hall c Hin). congruence.
Qed.

End CursorFacts.

(** ** The model on the concrete instance *)

Example date_stage_without_reports :
  new_calls Demo.fresh_world
    (render_date_contents [] (Date 2000 1 1) false false Demo.fresh_world).2
  = [LatestDatePageBuilderBuild "outputs/date"].
Proof. reflexivity. Qed.

Example quest_stage_without_reports :
  new_calls Demo.fresh_world
    (render_quest_contents [] (Date 2000 1 1) false false Demo.fresh_world).2
  = [RecorderSave
       {| partitioningRule := PartitioningRuleByQuestList false;
          skipSaveRule := SkipSaveRuleNeverMatch;
          basedir := "outputs/quest";
          formats := [JSON; QUESTLISTHTML] |}
       [] true false].
Proof. reflexivity. Qed.

Example scheduled_run_sets_cursor :
  latest_tweet_id_object (collect_tweets Demo.fresh_world).2
  = Some "1002"%string.
Proof. reflexivity. Qed.

Example index_at_root :
  new_calls Demo.fresh_world
    (invalidate_cloudfront_cache (Demo.index_written "index.html" 600)
       Demo.fresh_world).2
  = [CloudfrontCreateInvalidation "E123" 1 ["/"%string]
       "harvest-1714727287.5-77"].
Proof. reflexivity. Qed.

Example no_records :
  (invalidate_cloudfront_cache {| Records := [] |} Demo.fresh_world).1
  = Raise IndexError.
Proof. reflexivity. Qed.

Example split_by_date :
  fst <$> split_tweets_by_date [Demo.tweet1; Demo.tweet2; Demo.tweet1]
  = [Date 2024 5 1; Date 2024 5 2].
Proof. reflexivity. Qed.

(** * The claims *)

Section Claims.
Context `{Chalicelib}.

(** C1.  A scheduled run to which the collector returns no item stops
    there: it returns normally, the Cursor object, the persisted exclusion
    set, the raw-item log and the rendered objects are what they were, and
    the only calls issued are the download of the Cursor, the construction
    of the exclusion set and the collection itself; no write and no render
    call is among them. *)
Theorem collect_tweets_zero_items_noop w :
  (collected w).1 = [] ->
  (collect_tweets w).1 = Return tt
  /\ same_objects w (collect_tweets w).2
  /\ new_calls w (collect_tweets w).2
     = [S3DownloadFileobj latest_tweet_id_file_key;
        CensoredAccountsInit censored_accounts_filepath;
        AgentCollect 5 (cursor w)]
  /\ Forall (fun c => write_call c = false /\ render_call c = false)
       (new_calls w (collect_tweets w).2).
Proof.
  intros Hnil. destruct (collected w) as [tweets cens] eqn:Hc.
  cbn in Hnil. subst tweets.
  rewrite (collect_tweets_empty _ _ Hc). cbn [fst snd].
  rewrite new_calls_after. repeat split; by repeat constructor.
Qed.

(** C2.  A scheduled run that observes at least one item leaves in the
    Cursor object the decimal text of the identifier of the item at index
    0, uploads exactly that text, and the Cursor then reads as that
    identifier.  If the collector returns only items newer than the cursor
    it was given, the Cursor is never behind where it was, whatever
    sequence of scheduled runs, recollections, rebuilds, invalidations and
    changes of the surroundings takes place; and when a batch comes
    newest first, no item of it is newer than the new Cursor. *)
Theorem cursor_set_to_first_item_and_never_backward :
  (forall w tw rest cens,
     collected w = (tw :: rest, cens) ->
     latest_tweet_id_object (collect_tweets w).2 = Some (Py.str (tweet_id tw))
     /\ cursor (collect_tweets w).2 = Some (tweet_id tw)
     /\ S3UploadFileobj latest_tweet_id_file_key (Py.str (tweet_id tw))
        ∈ new_calls w (collect_tweets w).2)
  /\ (returns_only_newer ->
      forall invs w, cursor_le (cursor w) (cursor (run_all invs w)))
  /\ (forall w o,
        newest_first (collected w).1 -> o ∈ (collected w).1 ->
        cursor_le (Some (tweet_id o)) (cursor (collect_tweets w).2)).
Proof.
  split; [|split].
  - intros w tw rest cens Hc.
    rewrite (collect_tweets_nonempty _ _ _ _ Hc). cbn [snd].
    unfold cursor, new_calls. cbn [latest_tweet_id_object calls].
    rewrite int_str, drop_app_length. repeat split.
    rewrite !elem_of_app. do 3 right. left.
  - intros Hnewer invs. by apply run_all_cursor_le.
  - intros w o Hfirst Hin.
    destruct (collected w) as [[|tw rest] cens] eqn:Hc;
      [by apply elem_of_nil in Hin|].
    rewrite (collect_tweets_nonempty _ _ _ _ Hc). cbn [snd].
    unfold cursor. cbn [latest_tweet_id_object]. rewrite int_str. cbn.
    by apply (newest_first_head tw rest).
Qed.

(** C3.  Every invocation of the quest stage ends with a save of the
    topic-list view with [force=True] and the caller's [ignore_original],
    whatever the caller's flags and whatever was accumulated.  The view
    saved with force is the recorder partitioned by quest list, with no
    skip rule, under [ProcessorOutputDir/quest], in the formats JSON and
    quest-list HTML; the by-quest recorder is saved before it, with the
    caller's two flags, exactly when its count is not zero. *)
Theorem quest_list_saved_with_force reports d force ign w :
  let recorder :=
    {| partitioningRule := PartitioningRuleByQuest;
       skipSaveRule := SkipSaveRuleByDateAndQuest d;
       basedir := ProcessorOutputDir +:+ "/quest";
       formats := [JSON; CSV; QUESTHTML] |} in
  let recorder_byquestlist :=
    {| partitioningRule := PartitioningRuleByQuestList ign;
       skipSaveRule := SkipSaveRuleNeverMatch;
       basedir := ProcessorOutputDir +:+ "/quest";
       formats := [JSON; QUESTLISTHTML] |} in
  let w' := (render_quest_contents reports d force ign w).2 in
  (render_quest_contents reports d force ign w).1 = Return tt
  /\ new_calls w w'
     = (if decide (recorder_count recorder reports = 0) then []
        else [RecorderSave recorder reports force ign])
       ++ [RecorderSave recorder_byquestlist reports true ign]
  /\ last (new_calls w w')
     = Some (RecorderSave
               {| partitioningRule := PartitioningRuleByQuestList ign;
                  skipSaveRule := SkipSaveRuleNeverMatch;
                  basedir := ProcessorOutputDir +:+ "/quest";
                  formats := [JSON; QUESTLISTHTML] |}
               reports true ign)
  /\ output_objects w'
     = recorder_save recorder_byquestlist reports true ign
         (if decide (recorder_count recorder reports = 0)
          then output_objects w
          else recorder_save recorder reports force ign (output_objects w)).
Proof.
  intros recorder recorder_byquestlist w'. subst w'.
  rewrite render_quest_contents_run. cbn [fst snd].
  rewrite new_calls_after, output_objects_after.
  split; [done|]. split; [done|]. split; [|done].
  apply last_snoc.
Qed.

(** C4, as the program has it.  With a skip-target date that is absent or
    parses, a rebuild issues, after loading the exclusion set and the raw
    history: the date, user, quest and month renders, each only when its
    own skip flag is unset (the first three with [ignore_original=True]);
    then, whatever the flags, [render_contents]: the date, user, quest and
    error renders with [ignore_original=True].  The month stage is part of
    no other pass, so it is rendered exactly when [skipBuildMonth] is
    unset. *)
Theorem rebuild_outputs_passes event w d :
  rebuild_target event = Some d ->
  let reports := (parse_tweets (rebuild_tweets w)).1 in
  let errors := (parse_tweets (rebuild_tweets w)).2 in
  let w' := (rebuild_outputs event w).2 in
  (rebuild_outputs event w).1 = Return tt
  /\ new_calls w w'
     = rebuild_prologue w
       ++ (if skipBuildDate event then [] else date_calls reports d false true)
       ++ (if skipBuildUser event then [] else user_calls reports d false true)
       ++ (if skipBuildQuest event then [] else quest_calls reports d false true)
       ++ (if skipBuildMonth event then [] else month_calls reports d false)
       ++ date_calls reports d false true
       ++ user_calls reports d false true
       ++ quest_calls reports d false true
       ++ error_calls errors false true
  /\ (Exists (fun c => month_call c = true) (new_calls w w')
      <-> skipBuildMonth event = false)
  /\ output_objects w'
     = fanout_outputs reports errors d true
         (guarded_outputs event reports d (output_objects w)).
Proof.
  intros Hd reports errors w'. subst w'.
  rewrite (rebuild_outputs_run _ _ _ Hd). cbn [fst snd].
  rewrite new_calls_after, output_objects_after.
  fold reports errors. split; [done|]. split.
  { unfold guarded_calls, fanout_calls. by rewrite <- !app_assoc. }
  split; [|done].
  unfold guarded_calls, fanout_calls, rebuild_prologue. split.
  - intros Hex. destruct (skipBuildMonth event); [|done]. exfalso.
    revert Hex. apply not_month_no_month.
    rewrite !Forall_app. repeat split;
      repeat match goal with |- context [if ?b then _ else _] => destruct b end;
      first [ apply date_calls_month | apply user_calls_month
            | apply quest_calls_month | by repeat constructor ].
  - intros ->. rewrite <- !app_assoc, !Exists_app.
    do 4 right. left. apply month_calls_month.
Qed.

(** C5.  A body that is not a list, a list of more than 20 entries and a
    list with an entry that does not parse are each rejected with
    [BadRequestError]; the world is left as it was, so that no call at all
    (no fetch, no write to the raw log, no render) has been issued. *)
Theorem recollect_tweets_rejects_malformed data w :
  malformed data ->
  recollect_tweets data w = (Raise (BadRequestError "wrong format"), w)
  /\ new_calls w (recollect_tweets data w).2 = [].
Proof.
  intros Hbad. rewrite (recollect_tweets_rejected _ _ Hbad).
  split; [done|]. unfold new_calls. cbn [snd]. apply drop_all.
Qed.

(** C6, as the program has it.  For a list of at most 20 URLs that all
    parse: when every requested target is already in the per-source
    rendered state, the call returns the success status, changes no object
    and issues no fetch and no write (its only calls are the loads of the
    per-source state).  In particular a repeated call is such a no-op
    whenever the first call left every requested target in that state. *)
Theorem recollect_tweets_all_present_noop urls :
  well_formed urls ->
  (forall w, all_present (output_objects w) urls -> recollect_noop (JList urls) w)
  /\ (forall w,
        all_present (output_objects (recollect_tweets (JList urls) w).2) urls ->
        recollect_noop (JList urls) (recollect_tweets (JList urls) w).2).
Proof.
  intros [Hlen Hparse].
  assert (Hnoop : forall w,
    all_present (output_objects w) urls -> recollect_noop (JList urls) w).
  { intros w Hall.
    destruct (parse_multi_from_parseable urls [] Hparse) as [d Hd].
    assert (Hc : candidates_of (output_objects w) d = []).
    { apply candidates_of_nil. intros user targets target Hin Ht.
      destruct (parse_multi_elem _ _ _ _ _ Hd Hin Ht) as (url & Hu & Hp).
      by eapply Hall. }
    unfold recollect_noop.
    rewrite (recollect_tweets_no_candidates urls d w Hlen Hd Hc).
    cbn [fst snd]. rewrite new_calls_after. repeat split.
    unfold load_calls. by apply Forall_fmap, Forall_true. }
  split; [exact Hnoop|]. intros w. apply Hnoop.
Qed.

(** C7.  Whatever the body, a recollection leaves the Cursor object and
    the persisted exclusion set as they were, and none of its calls
    downloads or uploads the Cursor, constructs, lists or saves the
    exclusion set, or runs the collection that mutates it. *)
Theorem recollect_tweets_keeps_cursor_and_exclusions data w :
  latest_tweet_id_object (recollect_tweets data w).2 = latest_tweet_id_object w
  /\ censored_object (recollect_tweets data w).2 = censored_object w
  /\ Forall (fun c => cursor_or_exclusion_call c = false)
       (new_calls w (recollect_tweets data w).2).
Proof.
  destruct (recollect_tweets_frame data w) as (t & o & cs & -> & Hcs).
  by rewrite new_calls_after.
Qed.


(** C9.  Every call of the date stage returns normally and ends with the
    build of the latest-date index, on the objects the stage has by then;
    the save of the by-date recorder comes before it exactly when the
    recorder's count is not zero.  With a count of zero the index build is
    the only call. *)
Theorem latest_date_page_always_built reports d force ign w :
  let outdir := ProcessorOutputDir +:+ "/date" in
  let recorder := date_recorder outdir d in
  let w' := (render_date_contents reports d force ign w).2 in
  (render_date_contents reports d force ign w).1 = Return tt
  /\ new_calls w w'
     = (if decide (recorder_count recorder reports = 0) then []
        else [RecorderSave recorder reports force ign])
       ++ [LatestDatePageBuilderBuild outdir]
  /\ output_objects w'
     = latest_date_page_build outdir
         (if decide (recorder_count recorder reports = 0)
          then output_objects w
          else recorder_save recorder reports force ign (output_objects w)).
Proof.
  intros outdir recorder w'. subst w'.
  rewrite render_date_contents_run. cbn [fst snd].
  rewrite new_calls_after, output_objects_after. done.
Qed.

(** C10.  For a key whose item ends in [/index.html], the write is ignored
    exactly when its size is less than 600: 599 bytes issue nothing, 600
    bytes issue one invalidation. *)
Theorem invalidation_threshold_is_600 k rest w :
  Py.endswith ("/" +:+ k) "/index.html" = true ->
  let written n := {| Records := {| key := k; size := n |} :: rest |} in
  (forall n,
     new_calls w (invalidate_cloudfront_cache (written n) w).2 = []
     <-> n < 600)
  /\ invalidate_cloudfront_cache (written 599) w = (Return tt, w)
  /\ exists parent,
       new_calls w (invalidate_cloudfront_cache (written 600) w).2
       = [CloudfrontCreateInvalidation CloudfrontDistributionId 1 [parent]
            ("harvest-" +:+ time_text w +:+ "-" +:+ Py.str (randint w))].
Proof.
  intros He written. split; [|split].
  - intros n. destruct (Z.lt_ge_cases n 600) as [Hs|Hs].
    + subst written. cbv beta. rewrite invalidate_small by done.
      cbn [snd]. unfold new_calls. by rewrite drop_all.
    + destruct (invalidate_issued {| key := k; size := n |} rest w He Hs)
        as (p & _ & Hrun).
      subst written. cbv beta. rewrite Hrun. cbn [snd].
      rewrite new_calls_after. split; [done|lia].
  - subst written. cbv beta. by apply invalidate_small.
  - destruct (invalidate_issued {| key := k; size := 600 |} rest w He)
      as (p & _ & Hrun); [done|].
    subst written. cbv beta. rewrite Hrun. cbn [snd].
    rewrite new_calls_after. by eexists.
Qed.

End Claims.

(** * The claims on the concrete instance *)

Section DemoFacts.

Lemma demo_returns_only_newer : returns_only_newer (H := Demo.lib).
Proof.
  intros f n c cens tw Hin. cbn in Hin. unfold Demo.demo_agent_collect in Hin.
  cbn [fst] in Hin. apply list_elem_of_filter in Hin as [[Hnew _] _].
  cbn in Hnew. by apply Z.ltb_lt.
Defined.

Lemma demo_well_formed : well_formed (H := Demo.lib) [JString "alice/1001"].
Proof.
  split; [cbn; lia|].
  intros url ->%list_elem_of_singleton. by eexists.
Defined.

Lemma demo_all_present :
  all_present (H := Demo.lib)
    (output_objects (collect_tweets Demo.fresh_world).2)
    [JString "alice/1001"].
Proof.
  intros url user target ->%list_elem_of_singleton Hp.
  vm_compute in Hp. injection Hp as <- <-.
  apply elem_of_list_to_set. vm_compute. left.
Defined.

End DemoFacts.

(** C1 on a world whose cursor is already the newest post upstream. *)
Lemma collect_tweets_zero_items_noop_witness :
  (collected Demo.quiet_world).1 = []
  /\ (collect_tweets Demo.quiet_world).1 = Return tt
  /\ same_objects Demo.quiet_world (collect_tweets Demo.quiet_world).2
  /\ new_calls Demo.quiet_world (collect_tweets Demo.quiet_world).2
     = [S3DownloadFileobj "settings/latest_tweet_id";
        CensoredAccountsInit "settings/censored_accounts";
        AgentCollect 5 (Some 1001)].
Proof.
  split; [reflexivity|].
  destruct (collect_tweets_zero_items_noop Demo.quiet_world eq_refl)
    as (Hr & Hs & Hc & _).
  exact (conj Hr (conj Hs Hc)).
Defined.

(** C2 on a world with two posts upstream and no cursor, over a scheduled
    run, a recollection, a rebuild and another scheduled run. *)
Lemma cursor_set_to_first_item_and_never_backward_witness :
  returns_only_newer (H := Demo.lib)
  /\ newest_first (collected Demo.fresh_world).1
  /\ cursor (collect_tweets Demo.fresh_world).2 = Some 1002
  /\ cursor_le (cursor Demo.fresh_world)
       (cursor
          (run_all
             [Scheduled; Recollect Demo.gone_url; Rebuild Demo.skip_month;
              Surroundings (H := Demo.lib) [Demo.tweet2; Demo.tweet1]
                (DateTime (Date 2024 5 4) 0 0 0) "1714780800.0" 5;
              Scheduled]
             Demo.fresh_world))
  /\ cursor_le (Some 1001) (cursor (collect_tweets Demo.fresh_world).2).
Proof.
  destruct (cursor_set_to_first_item_and_never_backward (H := Demo.lib))
    as (Hset & Hmono & Hnewest).
  assert (Hfirst : newest_first (collected Demo.fresh_world).1).
  { vm_compute. repeat constructor; discriminate. }
  split; [exact demo_returns_only_newer|]. split; [exact Hfirst|]. split.
  - exact (proj1 (proj2 (Hset Demo.fresh_world Demo.tweet2 [Demo.tweet1] []
                           eq_refl))).
  - split.
    + exact (Hmono demo_returns_only_newer _ Demo.fresh_world).
    + apply (Hnewest Demo.fresh_world Demo.tweet1 Hfirst).
      right. left.
Defined.

(** The month stage's own render does not run in every rebuild: with
    [skipBuildMonth] set and two posts in the raw log, no call of the
    month stage is issued. *)
Lemma rebuild_with_skip_month_renders_no_month :
  (rebuild_outputs Demo.skip_month Demo.archive_world).1 = Return tt
  /\ ~ Exists (fun c => month_call c = true)
         (new_calls Demo.archive_world
            (rebuild_outputs Demo.skip_month Demo.archive_world).2).
Proof.
  rewrite (rebuild_outputs_run Demo.skip_month Demo.archive_world
             (Date 2000 1 1) eq_refl).
  cbn [fst snd]. rewrite new_calls_after. split; [reflexivity|].
  apply not_month_no_month.
  unfold guarded_calls, rebuild_prologue. cbn [Demo.skip_month
    skipBuildDate skipBuildUser skipBuildQuest skipBuildMonth].
  rewrite !Forall_app. repeat split;
    first [ apply date_calls_month | apply user_calls_month
          | apply quest_calls_month | apply fanout_calls_month
          | by repeat constructor ].
Qed.

(** C4 as the program has it, on the same rebuild. *)
Lemma rebuild_outputs_passes_witness :
  rebuild_target (H := Demo.lib) Demo.skip_month = Some (Date 2000 1 1)
  /\ (rebuild_outputs Demo.skip_month Demo.archive_world).1 = Return tt
  /\ (Exists (fun c => month_call c = true)
        (new_calls Demo.archive_world
           (rebuild_outputs Demo.skip_month Demo.archive_world).2)
      <-> skipBuildMonth Demo.skip_month = false).
Proof.
  split; [reflexivity|].
  destruct (rebuild_outputs_passes Demo.skip_month Demo.archive_world
              (Date 2000 1 1) eq_refl) as (Hr & _ & Hm & _).
  exact (conj Hr Hm).
Defined.

(** C5 on a list whose second entry does not parse. *)
Lemma recollect_tweets_rejects_malformed_witness :
  malformed (H := Demo.lib) (JList [JString "alice/1001"; JString "bob"])
  /\ recollect_tweets (JList [JString "alice/1001"; JString "bob"])
       Demo.fresh_world
     = (Raise (BadRequestError "wrong format"), Demo.fresh_world).
Proof.
  assert (Hbad : malformed (H := Demo.lib)
                   (JList [JString "alice/1001"; JString "bob"])).
  { right. exists (JString "bob"). split; [right; left|reflexivity]. }
  split; [exact Hbad|].
  exact (proj1 (recollect_tweets_rejects_malformed _ Demo.fresh_world Hbad)).
Defined.

(** A repeated call after a successful first call need not be a no-op.
    The first call for a post that the feed no longer returns succeeds,
    and the same call again contacts the feed again.  The first call for
    a post that does not parse succeeds, and the same call again fetches
    the post again and appends it to the raw log again. *)
Lemma recollect_repeated_call_fetches_again :
  ((recollect_tweets Demo.gone_url Demo.fresh_world).1 = Return status_ok
   /\ ~ recollect_noop Demo.gone_url
          (recollect_tweets Demo.gone_url Demo.fresh_world).2)
  /\ ((recollect_tweets Demo.unparsed_url Demo.unparsed_world).1
      = Return status_ok
      /\ ~ recollect_noop Demo.unparsed_url
             (recollect_tweets Demo.unparsed_url Demo.unparsed_world).2
      /\ [AgentGetMulti [1003];
          TweetRepositoryAppendTweets "20240503_000000.json" [Demo.tweet3]]
         = take 2 (drop 1
             (new_calls
                (recollect_tweets Demo.unparsed_url Demo.unparsed_world).2
                (recollect_tweets Demo.unparsed_url
                   (recollect_tweets Demo.unparsed_url
                      Demo.unparsed_world).2).2))).
Proof.
  split.
  - split; [reflexivity|]. intros (_ & _ & Hall).
    assert (Hcalls :
      new_calls (recollect_tweets Demo.gone_url Demo.fresh_world).2
        (recollect_tweets Demo.gone_url
           (recollect_tweets Demo.gone_url Demo.fresh_world).2).2
      = [UserOutputRepositoryLoad "alice"; AgentGetMulti [404]])
      by reflexivity.
    rewrite Hcalls in Hall.
    inversion Hall as [|? ? _ Hrest]. inversion Hrest as [|? ? [Hfetch _] _].
    discriminate.
  - split; [reflexivity|]. split; [|reflexivity]. intros (_ & _ & Hall).
    assert (Hcalls :
      take 2 (new_calls
                (recollect_tweets Demo.unparsed_url Demo.unparsed_world).2
                (recollect_tweets Demo.unparsed_url
                   (recollect_tweets Demo.unparsed_url
                      Demo.unparsed_world).2).2)
      = [UserOutputRepositoryLoad "carol"; AgentGetMulti [1003]])
      by reflexivity.
    apply (Forall_take _ 2%nat) in Hall. rewrite Hcalls in Hall.
    inversion Hall as [|? ? _ Hrest]. inversion Hrest as [|? ? [Hfetch _] _].
    discriminate.
Qed.

(** C6 as the program has it, on a request for a post that a scheduled run
    has rendered. *)
Lemma recollect_tweets_all_present_noop_witness :
  well_formed (H := Demo.lib) [JString "alice/1001"]
  /\ all_present (H := Demo.lib)
       (output_objects (collect_tweets Demo.fresh_world).2)
       [JString "alice/1001"]
  /\ recollect_noop (JList [JString "alice/1001"])
       (collect_tweets Demo.fresh_world).2.
Proof.
  split; [exact demo_well_formed|]. split; [exact demo_all_present|].
  exact (proj1 (recollect_tweets_all_present_noop _ demo_well_formed)
           _ demo_all_present).
Defined.


(** C10 at [a/b/index.html]. *)
Lemma invalidation_threshold_is_600_witness :
  Py.endswith "/a/b/index.html" "/index.html" = true
  /\ invalidate_cloudfront_cache (Demo.index_written "a/b/index.html" 599)
       Demo.fresh_world
     = (Return tt, Demo.fresh_world)
  /\ exists parent,
       new_calls Demo.fresh_world
         (invalidate_cloudfront_cache (Demo.index_written "a/b/index.html" 600)
            Demo.fresh_world).2
       = [CloudfrontCreateInvalidation "E123" 1 [parent]
            "harvest-1714727287.5-77"].
Proof.
  split; [reflexivity|].
  exact (proj2 (invalidation_threshold_is_600 (H := Demo.lib)
                  "a/b/index.html" [] Demo.fresh_world eq_refl)).
Defined.

(** * Further properties of [app.py] *)

(** ** [parse_tweets] and [split_tweets_by_date] *)

Section BatchFacts.
Context `{Chalicelib}.

Lemma parse_tweets_omap tweets :
  parse_tweets tweets = (omap parsed_report tweets, omap parse_error tweets).
Proof.
  induction tweets as [|tw tweets IH]; [reflexivity|].
  cbn [parse_tweets omap list_omap]. rewrite IH.
  unfold parsed_report, parse_error. by destruct (parse_tweet tw).
Qed.

Lemma omap_halves_length tweets :
  (length (omap parsed_report tweets) + length (omap parse_error tweets)
   = length tweets)%nat.
Proof.
  induction tweets as [|tw tweets IH]; [reflexivity|].
  cbn [omap list_omap]. unfold parsed_report at 1, parse_error at 1.
  destruct (parse_tweet tw); cbn [length]; lia.
Qed.

Lemma dict_append_keys {K V} `{EqDecision K} (d : list (K * list V)) k v :
  (dict_append d k v).*1 = if decide (k ∈ d.*1) then d.*1 else d.*1 ++ [k].
Proof.
  induction d as [|[k' vs] d IH]; cbn [dict_append].
  - rewrite decide_False; [done|apply not_elem_of_nil].
  - cbn [fmap list_fmap fst]. destruct (decide (k' = k)) as [->|Hne].
    + rewrite decide_True; [done|left].
    + cbn [fmap list_fmap fst]. rewrite IH.
      destruct (decide (k ∈ d.*1)) as [Hin|Hnin].
      * rewrite decide_True; [done|by right].
      * rewrite decide_False; [done|].
        intros [?|?]%elem_of_cons; congruence.
Qed.

Lemma dict_append_NoDup {K V} `{EqDecision K} (d : list (K * list V)) k v :
  NoDup d.*1 -> NoDup (dict_append d k v).*1.
Proof.
  intros Hd. rewrite dict_append_keys. case_decide; [done|].
  apply NoDup_app. repeat split; [done| |apply NoDup_singleton].
  intros x Hx ->%list_elem_of_singleton. done.
Qed.

Lemma dict_append_concat {K V} `{EqDecision K} (d : list (K * list V)) k v :
  concat (dict_append d k v).*2 ≡ₚ concat d.*2 ++ [v].
Proof.
  induction d as [|[k' vs] d IH]; cbn [dict_append]; [done|].
  case_decide; cbn [fmap list_fmap snd concat].
  - rewrite <- !app_assoc. f_equiv. apply Permutation_app_comm.
  - rewrite IH. by rewrite app_assoc.
Qed.

Lemma dict_get_append {K V} `{EqDecision K} (d : list (K * list V)) k v k' :
  dict_get (dict_append d k v) k'
  = dict_get d k' ++ (if decide (k = k') then [v] else []).
Proof.
  induction d as [|[k0 vs] d IH]; cbn [dict_append dict_get].
  - by case_decide.
  - destruct (decide (k0 = k)) as [->|Hne]; cbn [dict_get].
    + destruct (decide (k = k')); [done|]. by rewrite app_nil_r.
    + destruct (decide (k0 = k')) as [->|]; [|apply IH].
      rewrite decide_False by done. by rewrite app_nil_r.
Qed.

Lemma dict_get_elem {K V} `{EqDecision K} (d : list (K * list V)) k vs :
  NoDup d.*1 -> (k, vs) ∈ d -> dict_get d k = vs.
Proof.
  induction d as [|[k0 vs0] d IH]; intros Hd Hin; [by apply elem_of_nil in Hin|].
  cbn [fmap list_fmap fst] in Hd. apply NoDup_cons in Hd as [Hk0 Hd].
  cbn [dict_get]. apply elem_of_cons in Hin as [Heq|Hin].
  - injection Heq as -> ->. by rewrite decide_True.
  - rewrite decide_False; [by apply IH|]. intros ->. apply Hk0.
    apply list_elem_of_fmap. by exists (k, vs).
Qed.

Lemma dict_get_key {K V} `{EqDecision K} (d : list (K * list V)) k :
  dict_get d k <> [] -> k ∈ d.*1.
Proof.
  induction d as [|[k0 vs0] d IH]; cbn [dict_get]; [done|].
  cbn [fmap list_fmap fst]. case_decide as Hk; [subst; left|].
  intros Hne. right. by apply IH.
Qed.

Lemma dict_append_nonempty {K V} `{EqDecision K} (d : list (K * list V)) k v :
  Forall (fun entry => entry.2 <> []) d ->
  Forall (fun entry => entry.2 <> []) (dict_append d k v).
Proof.
  induction 1 as [|[k0 vs] d Hvs Hd IH]; cbn [dict_append].
  - by repeat constructor.
  - case_decide; constructor; try done.
    cbn. by intros [_ ?]%app_eq_nil.
Qed.

(** The dict that the loop of [split_tweets_by_date] has built after it
    has gone through [tweets], started from [d]. *)
Lemma split_loop_invariant (tweets : list TweetCopy) :
  forall d : list (date * list TweetCopy),
    let d' := foldl (fun d tw => dict_append d (posted_on tw) tw) d tweets in
    (NoDup d.*1 -> NoDup d'.*1)
    /\ (Forall (fun entry => entry.2 <> []) d ->
        Forall (fun entry => entry.2 <> []) d')
    /\ (forall dt,
          dict_get d' dt
          = dict_get d dt ++ filter (fun tw => posted_on tw = dt) tweets)
    /\ concat d'.*2 ≡ₚ concat d.*2 ++ tweets.
Proof.
  induction tweets as [|tw tweets IH]; intros d; cbn [foldl].
  - repeat split; try done; intros; by rewrite ?app_nil_r.
  - destruct (IH (dict_append d (posted_on tw) tw)) as (Hnd & Hne & Hget & Hperm).
    repeat split.
    + intros Hd. by apply Hnd, dict_append_NoDup.
    + intros Hd. by apply Hne, dict_append_nonempty.
    + intros dt. rewrite Hget, dict_get_append, <- app_assoc. f_equal.
      rewrite filter_cons. by case_decide.
    + rewrite Hperm, dict_append_concat, <- app_assoc. done.
Qed.

End BatchFacts.

(** ** The names of the raw-log entries *)

Section NameFacts.
Import Py.

Lemma string_app_inj_length (a b c d : string) :
  String.length a = String.length c -> a +:+ b = c +:+ d -> a = c /\ b = d.
Proof.
  revert c. induction a as [|x a IH]; intros [|y c] Hlen Heq; try done.
  rewrite !string_app_cons in Heq. injection Heq as -> Heq.
  destruct (IH c) as [-> ->]; [by injection Hlen|done|done].
Qed.

Lemma str_digits_length fuel :
  forall n (k : nat),
    0 <= n < 10 ^ Z.of_nat k -> (0 < k)%nat ->
    (String.length (str_digits fuel n) <= k)%nat.
Proof.
  induction fuel as [|fuel IH]; intros n k Hn Hk; cbn [str_digits]; [cbn; lia|].
  destruct (Z.ltb_spec n 10) as [Hlt|Hge]; [cbn; lia|].
  rewrite string_app_length. cbn [String.length].
  destruct k as [|[|k]]; [lia|cbn in Hn; lia|].
  assert (String.length (str_digits fuel (n / 10)) <= S k)%nat; [|lia].
  apply IH; [|lia]. split; [apply Z.div_pos; lia|].
  apply Z.div_lt_upper_bound; [lia|].
  rewrite (Nat2Z.inj_succ (S k)), Z.pow_succ_r in Hn by lia. lia.
Qed.

Lemma str_length n (k : nat) :
  0 <= n < 10 ^ Z.of_nat k -> (0 < k)%nat ->
  (String.length (str n) <= k)%nat.
Proof.
  intros Hn Hk. unfold str. destruct (Z.ltb_spec n 0); [lia|].
  by apply str_digits_length.
Qed.

Lemma zeros_length (j : nat) :
  String.length (String.concat EmptyString (replicate j "0"%string)) = j.
Proof.
  induction j as [|[|j] IH]; [reflexivity..|].
  change (replicate (S (S j)) "0"%string)
    with ("0"%string :: replicate (S j) "0"%string).
  cbn [String.concat]. cbn [replicate] in *.
  rewrite !string_app_length, IH. reflexivity.
Qed.

Lemma zeros_digits (j : nat) st rest :
  int_digits st 0
    (String.concat EmptyString (replicate j "0"%string) +:+ rest)
  = int_digits (match j with O => st | S _ => LitDigit end) 0 rest.
Proof.
  revert st. induction j as [|[|j] IH]; intros st; [reflexivity..|].
  change (replicate (S (S j)) "0"%string)
    with ("0"%string :: replicate (S j) "0"%string).
  cbn [String.concat]. cbn [replicate] in *.
  rewrite !string_app_assoc, string_app_nil_l, string_app_cons.
  cbn [int_digits]. cbn. rewrite string_app_nil_l. apply (IH LitDigit).
Qed.

Lemma pad_length (w : nat) n :
  0 <= n < 10 ^ Z.of_nat w -> (0 < w)%nat -> String.length (pad w n) = w.
Proof.
  intros Hn Hw. unfold pad. rewrite string_app_length, zeros_length.
  pose proof (str_length n w Hn Hw). lia.
Qed.

Lemma pad_digits (w : nat) n :
  0 <= n -> int_digits LitStart 0 (pad w n) = Some n.
Proof.
  intros Hn. unfold pad. rewrite zeros_digits.
  unfold str. destruct (Z.ltb_spec n 0); [lia|].
  destruct (w - String.length (str_nonneg n))%nat; [by apply str_nonneg_digits|].
  unfold str_nonneg. rewrite <- (string_app_nil_r (str_digits _ n)).
  rewrite int_digits_str_digits; [reflexivity| |lia].
  split; [lia|].
  destruct (Z.eq_dec n 0) as [->|Hne]; [reflexivity|].
  rewrite Nat2Z.inj_succ, Z2Nat.id by apply Z.log2_nonneg.
  apply Z.log2_spec. lia.
Qed.

Lemma pad_inj (w : nat) a b :
  0 <= a -> 0 <= b -> pad w a = pad w b -> a = b.
Proof.
  intros Ha Hb Heq. apply (f_equal (int_digits LitStart 0)) in Heq.
  rewrite !pad_digits in Heq by done. by injection Heq.
Qed.

(** Two fields of the same width followed by anything. *)
Lemma pad_app_inj (w : nat) a b r s :
  0 <= a < 10 ^ Z.of_nat w -> 0 <= b < 10 ^ Z.of_nat w -> (0 < w)%nat ->
  pad w a +:+ r = pad w b +:+ s -> a = b /\ r = s.
Proof.
  intros Ha Hb Hw Heq.
  destruct (string_app_inj_length _ _ _ _ (eq_trans (pad_length w a Ha Hw)
              (eq_sym (pad_length w b Hb Hw))) Heq) as [Hp ->].
  split; [|done]. apply (pad_inj w); [lia..|done].
Qed.

Lemma strftime_Ymd_inj d1 d2 r s :
  four_digit_year d1 -> four_digit_year d2 ->
  strftime_Ymd d1 +:+ r = strftime_Ymd d2 +:+ s -> d1 = d2 /\ r = s.
Proof.
  intros (Hy1 & Hm1 & Hd1) (Hy2 & Hm2 & Hd2) Heq. unfold strftime_Ymd in Heq.
  rewrite !string_app_assoc in Heq.
  apply (pad_app_inj 4) in Heq as [Hy Heq]; [|cbn; lia..].
  apply (pad_app_inj 2) in Heq as [Hm Heq]; [|cbn; lia..].
  apply (pad_app_inj 2) in Heq as [Hd Heq]; [|cbn; lia..].
  split; [|done]. destruct d1, d2. cbn in *. congruence.
Qed.

End NameFacts.

(** ** More on the entry points *)

Section MoreEntryFacts.
Context `{Chalicelib}.

Lemma collect_tweets_returns w : (collect_tweets w).1 = Return tt.
Proof.
  destruct (collected w) as [[|tw rest] cens] eqn:Hc.
  - by rewrite (collect_tweets_empty _ _ Hc).
  - by rewrite (collect_tweets_nonempty _ _ _ _ Hc).
Qed.

Lemma recollect_dates_calls entries :
  forall w, exists t o,
    for_each entries recollect_one_date w
    = (Return tt, after w t o (recollect_date_calls entries)).
Proof.
  induction entries as [|[dt tweets] entries IH]; intros w.
  - exists (tweet_objects w), (output_objects w). cbn. by rewrite after_nil.
  - cbn [for_each].
    erewrite bind_return by apply recollect_one_date_run. cbv zeta.
    destruct (IH (after w
      (tweet_append_tweets (strftime_Ymd_000000 dt +:+ ".json") tweets
         (tweet_objects w))
      (fanout_outputs (parse_tweets tweets).1 (parse_tweets tweets).2
         (Date 2000 1 1) false (output_objects w))
      (TweetRepositoryAppendTweets (strftime_Ymd_000000 dt +:+ ".json") tweets
       :: fanout_calls (parse_tweets tweets).1 (parse_tweets tweets).2
            (Date 2000 1 1) false))) as (t & o & ->).
    rewrite after_after. by eexists _, _.
Qed.

Lemma recollect_date_calls_recollect entries :
  Forall (fun c => recollect_call c = true) (recollect_date_calls entries).
Proof.
  unfold recollect_date_calls.
  induction entries as [|entry entries IH]; [constructor|].
  rewrite bind_cons. apply Forall_app. split; [|done].
  constructor; [done|apply fanout_calls_recollect].
Qed.

Lemma appended_fanout reports errors d ign :
  appended (fanout_calls reports errors d ign) = [].
Proof.
  unfold fanout_calls, date_calls, user_calls, quest_calls, error_calls,
    save_calls, appended.
  repeat case_decide; reflexivity.
Qed.

Lemma appended_app cs cs' : appended (cs ++ cs') = appended cs ++ appended cs'.
Proof. apply omap_app. Qed.

Lemma appended_recollect_date_calls entries :
  appended (recollect_date_calls entries)
  = (fun entry => (strftime_Ymd_000000 entry.1 +:+ ".json", entry.2))
    <$> entries.
Proof.
  unfold recollect_date_calls.
  induction entries as [|entry entries IH]; [reflexivity|].
  rewrite bind_cons, appended_app, IH.
  change (TweetRepositoryAppendTweets ?f ?ts :: ?r)
    with ([TweetRepositoryAppendTweets f ts] ++ r).
  rewrite appended_app, appended_fanout. reflexivity.
Qed.

Lemma appended_loads d : appended (load_calls d) = [].
Proof. unfold load_calls, appended. by induction d. Qed.

(** The three ways past the parser. *)
Lemma recollect_tweets_no_results urls d w c cands :
  Z.of_nat (length urls) <= 20 ->
  parse_multi urls = Some d ->
  candidates_of (output_objects w) d = c :: cands ->
  agent_get_multi (feed w) (c :: cands) = [] ->
  recollect_tweets (JList urls) w
  = (Return status_ok,
     rendered w (output_objects w) (load_calls d ++ [AgentGetMulti (c :: cands)])).
Proof.
  intros Hlen Hd Hc Hg. unfold recollect_tweets.
  case_decide; [lia|]. rewrite Hd.
  step find_candidates_run. rewrite Hc. cbn [app].
  step read_run. step call_run. by rewrite Hg.
Qed.

Lemma recollect_tweets_rendered urls d w c cands p tweet_dict :
  Z.of_nat (length urls) <= 20 ->
  parse_multi urls = Some d ->
  candidates_of (output_objects w) d = c :: cands ->
  agent_get_multi (feed w) (c :: cands) = p :: tweet_dict ->
  exists t o,
    recollect_tweets (JList urls) w
    = (Return status_ok,
       after w t o
         (load_calls d ++ [AgentGetMulti (c :: cands)]
          ++ recollect_date_calls
               (split_tweets_by_date (snd <$> p :: tweet_dict)))).
Proof.
  intros Hlen Hd Hc Hg. unfold recollect_tweets.
  case_decide; [lia|]. rewrite Hd.
  step find_candidates_run. rewrite Hc. cbn [app].
  step read_run. step call_run. rewrite Hg.
  destruct (recollect_dates_calls
              (split_tweets_by_date (snd <$> p :: tweet_dict))
              (rendered w (output_objects w)
                 (load_calls d ++ [AgentGetMulti (c :: cands)])))
    as (t & o & Hrun).
  step Hrun. exists t, o. cbn [mret M_ret]. by rewrite <- app_assoc.
Qed.

(** Loads first, then at most one fetch, then the appends and renders. *)
Lemma recollect_tweets_shape data w :
  exists t o loads fetches writes,
    (recollect_tweets data w).2 = after w t o (loads ++ fetches ++ writes)
    /\ Forall (fun c => load_call c = true) loads
    /\ (fetches = [] \/ exists ids, fetches = [AgentGetMulti ids])
    /\ Forall (fun c => recollect_call c = true) writes
    /\ (fetches = [] -> writes = []).
Proof.
  assert (Hsame : exists t o loads fetches writes,
    w = after w t o (loads ++ fetches ++ writes)
    /\ Forall (fun c => load_call c = true) loads
    /\ (fetches = [] \/ exists ids, fetches = [AgentGetMulti ids])
    /\ Forall (fun c => recollect_call c = true) writes
    /\ (fetches = [] -> writes = [])).
  { exists (tweet_objects w), (output_objects w), [], [], [].
    split; [symmetry; apply after_nil|].
    repeat split; by try constructor; try left. }
  assert (Hloads : forall d, Forall (fun c => load_call c = true) (load_calls d)).
  { intros d. unfold load_calls. by apply Forall_fmap, Forall_true. }
  destruct data as [| | | |urls|]; try exact Hsame.
  destruct (decide (20 < Z.of_nat (length urls))) as [Hlen|Hlen].
  { unfold recollect_tweets. rewrite decide_True by done. exact Hsame. }
  destruct (parse_multi urls) as [d|] eqn:Hd.
  2: { unfold recollect_tweets. rewrite decide_False by done.
       rewrite Hd. exact Hsame. }
  destruct (candidates_of (output_objects w) d) as [|c cands] eqn:Hc.
  { rewrite (recollect_tweets_no_candidates urls d w) by (done || lia).
    exists (tweet_objects w), (output_objects w), (load_calls d), [], [].
    cbn [snd]. rewrite !app_nil_r.
    split; [done|]. split; [done|]. split; [by left|].
    split; [constructor|done]. }
  destruct (agent_get_multi (feed w) (c :: cands)) as [|p tweet_dict] eqn:Hg.
  { rewrite (recollect_tweets_no_results urls d w c cands) by (done || lia).
    exists (tweet_objects w), (output_objects w), (load_calls d),
      [AgentGetMulti (c :: cands)], [].
    cbn [snd]. rewrite !app_nil_r.
    split; [done|]. split; [done|]. split; [right; by eexists|].
    split; [constructor|done]. }
  destruct (recollect_tweets_rendered urls d w c cands p tweet_dict)
    as (t & o & ->); [lia|done..|].
  exists t, o, (load_calls d), [AgentGetMulti (c :: cands)],
    (recollect_date_calls (split_tweets_by_date (snd <$> p :: tweet_dict))).
  cbn [snd]. split; [done|]. split; [done|]. split; [right; by eexists|].
  split; [apply recollect_date_calls_recollect|done].
Qed.

End MoreEntryFacts.

(** ** Properties of the batch helpers and of the render stages *)

Section MoreProperties.
Context `{Chalicelib}.

Lemma omap_parse_error_tweets tweets :
  Forall (fun e => parse_tweet (tweet e) = inr (error_message e)
                   /\ tweet e ∈ tweets)
    (omap parse_error tweets).
Proof.
  apply Forall_forall. intros e (tw & Hin & He)%list_elem_of_omap.
  unfold parse_error in He.
  destruct (parse_tweet tw) as [r|msg] eqn:Hp; [done|].
  injection He as <-. cbn [tweet error_message]. by rewrite Hp.
Qed.

Lemma fanout_calls_flags reports errors d ign :
  Forall (fanout_flags ign) (fanout_calls reports errors d ign).
Proof.
  unfold fanout_calls, date_calls, user_calls, quest_calls, error_calls,
    save_calls.
  repeat case_decide; repeat constructor; cbn; by destruct ign.
Qed.

(** X1.  [parse_tweets] accounts for every tweet of the batch: a tweet
    becomes a report or an error entry, never both and never neither; an
    error entry pairs a tweet of the batch with the message its parse
    gave; both lists keep the order of the batch, so that parsing two
    batches one after the other is parsing their concatenation. *)
Theorem parse_tweets_accounts_for_every_tweet tweets more :
  (length (parse_tweets tweets).1 + length (parse_tweets tweets).2
   = length tweets)%nat
  /\ Forall (fun e => parse_tweet (tweet e) = inr (error_message e)
                      /\ tweet e ∈ tweets)
       (parse_tweets tweets).2
  /\ (forall tw, tw ∈ tweets ->
        (exists r, parse_tweet tw = inl r /\ r ∈ (parse_tweets tweets).1)
        \/ (exists msg, parse_tweet tw = inr msg
            /\ {| tweet := tw; error_message := msg |}
               ∈ (parse_tweets tweets).2))
  /\ parse_tweets (tweets ++ more)
     = ((parse_tweets tweets).1 ++ (parse_tweets more).1,
        (parse_tweets tweets).2 ++ (parse_tweets more).2).
Proof.
  rewrite !parse_tweets_omap. cbn [fst snd]. split; [apply omap_halves_length|].
  split; [apply omap_parse_error_tweets|]. split.
  - intros tw Hin. destruct (parse_tweet tw) as [r|msg] eqn:Hp.
    + left. exists r. split; [done|]. apply list_elem_of_omap. exists tw.
      split; [done|]. unfold parsed_report. by rewrite Hp.
    + right. exists msg. split; [done|]. apply list_elem_of_omap. exists tw.
      split; [done|]. unfold parse_error. by rewrite Hp.
  - by rewrite !omap_app.
Qed.

Lemma split_tweets_by_date_groups tweets :
  let d := split_tweets_by_date tweets in
  NoDup d.*1
  /\ (forall dt group, (dt, group) ∈ d ->
        group <> [] /\ group = filter (fun tw => posted_on tw = dt) tweets)
  /\ (forall tw, tw ∈ tweets -> posted_on tw ∈ d.*1)
  /\ concat d.*2 ≡ₚ tweets.
Proof.
  intros d. destruct (split_loop_invariant tweets []) as (Hnd & Hne & Hget & Hperm).
  fold (split_tweets_by_date tweets) in Hnd, Hne, Hget, Hperm. fold d in Hnd, Hne, Hget, Hperm.
  specialize (Hnd (NoDup_nil_2)). specialize (Hne (Forall_nil_2 _)).
  split; [done|]. split; [|split; [|done]].
  - intros dt group Hin. split.
    + rewrite Forall_forall in Hne. apply (Hne (dt, group) Hin).
    + rewrite <- (dict_get_elem d dt group Hnd Hin). apply Hget.
  - intros tw Hin. apply dict_get_key. rewrite Hget. cbn [dict_get app].
    intros Hnil.
    assert (Htw : tw ∈ filter (fun o => posted_on o = posted_on tw) tweets)
      by (by apply list_elem_of_filter).
    rewrite Hnil in Htw. by apply elem_of_nil in Htw.
Qed.

(** X2.  [split_tweets_by_date] is a stable partition by posting date: the
    keys are distinct, the group of a key is not empty and is the tweets
    posted on that date in their order in the input, every posting date
    has a key, and the groups together are the input rearranged. *)
Theorem split_tweets_by_date_partitions tweets :
  let d := split_tweets_by_date tweets in
  NoDup d.*1
  /\ (forall dt group, (dt, group) ∈ d ->
        group <> [] /\ group = filter (fun tw => posted_on tw = dt) tweets)
  /\ (forall tw, tw ∈ tweets -> posted_on tw ∈ d.*1)
  /\ concat d.*2 ≡ₚ tweets.
Proof. apply split_tweets_by_date_groups. Qed.

(** X3.  The user stage saves each of its two recorders only when that
    recorder has something pending, both with the caller's flags: unlike
    the quest list, the user list is never forced.  With nothing pending
    the stage does nothing at all. *)
Theorem render_user_contents_saves_only_pending reports d force ign w :
  let outdir := ProcessorOutputDir +:+ "/user" in
  let recorder := user_recorder outdir d in
  let recorder_byuserlist := userlist_recorder outdir in
  new_calls w (render_user_contents reports d force ign w).2
  = (if decide (recorder_count recorder reports = 0) then []
     else [RecorderSave recorder reports force ign])
    ++ (if decide (recorder_count recorder_byuserlist reports = 0) then []
        else [RecorderSave recorder_byuserlist reports force ign])
  /\ (recorder_count recorder reports = 0 ->
      recorder_count recorder_byuserlist reports = 0 ->
      render_user_contents reports d force ign w = (Return tt, w)).
Proof.
  intros outdir recorder recorder_byuserlist.
  subst recorder recorder_byuserlist outdir.
  rewrite render_user_contents_run. cbn [snd]. rewrite new_calls_after.
  split; [done|]. intros H1 H2.
  unfold user_outputs, user_calls, save_outputs, save_calls.
  rewrite !decide_True by done. cbn [app]. by rewrite after_nil.
Qed.

(** X4.  The month stage never merges with what is stored: its save,
    issued only when something is pending, carries [ignore_original=True]
    whatever the caller passes, and the latest-month index is built after
    it, as the last call of every invocation. *)
Theorem render_month_contents_overwrites_then_indexes reports d force w :
  let outdir := ProcessorOutputDir +:+ "/month" in
  let recorder := month_recorder outdir d in
  let w' := (render_month_contents reports d force w).2 in
  (render_month_contents reports d force w).1 = Return tt
  /\ new_calls w w'
     = (if decide (recorder_count recorder reports = 0) then []
        else [RecorderSave recorder reports force true])
       ++ [LatestMonthPageBuilderBuild outdir]
  /\ output_objects w'
     = latest_month_page_build outdir
         (if decide (recorder_count recorder reports = 0)
          then output_objects w
          else recorder_save recorder reports force true (output_objects w))
  /\ tweet_objects w' = tweet_objects w.
Proof.
  intros outdir recorder w'. subst w'.
  rewrite render_month_contents_run. cbn [fst snd].
  rewrite new_calls_after, output_objects_after. done.
Qed.

(** X5.  [render_contents] runs the date stage, the user stage, the quest
    stage and the error page, in this order, and never the month stage.
    Its calls are exactly: the by-date recorder when its count is not
    zero, the build of the latest-date page, the by-user and the user-list
    recorders when their counts are not zero, the by-quest recorder when
    its count is not zero, the quest list, the error page.  Every save
    carries the caller's [ignore_original]; [force] is set on the quest
    list and on nothing else; the error page is saved last, also when
    there is no error, and only rendered objects change. *)
Theorem render_contents_flags reports errors d ign w :
  let w' := (render_contents reports errors d ign w).2 in
  let by_date :=
    {| partitioningRule := PartitioningRuleByDate;
       skipSaveRule := SkipSaveRuleByDate d;
       basedir := ProcessorOutputDir +:+ "/date";
       formats := [JSON; CSV; DATEHTML] |} in
  let by_user :=
    {| partitioningRule := PartitioningRuleByUser;
       skipSaveRule := SkipSaveRuleByDateAndUser d;
       basedir := ProcessorOutputDir +:+ "/user";
       formats := [JSON; CSV; USERHTML] |} in
  let by_userlist :=
    {| partitioningRule := PartitioningRuleByUserList;
       skipSaveRule := SkipSaveRuleNeverMatch;
       basedir := ProcessorOutputDir +:+ "/user";
       formats := [JSON; USERLISTHTML] |} in
  let by_quest :=
    {| partitioningRule := PartitioningRuleByQuest;
       skipSaveRule := SkipSaveRuleByDateAndQuest d;
       basedir := ProcessorOutputDir +:+ "/quest";
       formats := [JSON; CSV; QUESTHTML] |} in
  let by_questlist :=
    {| partitioningRule := PartitioningRuleByQuestList ign;
       skipSaveRule := SkipSaveRuleNeverMatch;
       basedir := ProcessorOutputDir +:+ "/quest";
       formats := [JSON; QUESTLISTHTML] |} in
  let error_page :=
    {| err_basedir := ProcessorOutputDir +:+ "/errors";
       err_key := "error";
       err_formats := [ErrJSON; ErrHTML] |} in
  let pending (r : Recorder) :=
    if decide (recorder_count r reports = 0) then []
    else [RecorderSave r reports false ign] in
  let saved (r : Recorder) (o : OutputObjects) :=
    if decide (recorder_count r reports = 0) then o
    else recorder_save r reports false ign o in
  (render_contents reports errors d ign w).1 = Return tt
  /\ new_calls w w'
     = pending by_date
       ++ [LatestDatePageBuilderBuild (ProcessorOutputDir +:+ "/date")]
       ++ pending by_user
       ++ pending by_userlist
       ++ pending by_quest
       ++ [RecorderSave by_questlist reports true ign]
       ++ [ErrorPageRecorderSave error_page errors false ign]
  /\ output_objects w'
     = error_recorder_save error_page errors false ign
         (recorder_save by_questlist reports true ign
            (saved by_quest
               (saved by_userlist
                  (saved by_user
                     (latest_date_page_build (ProcessorOutputDir +:+ "/date")
                        (saved by_date (output_objects w)))))))
  /\ Forall (fanout_flags ign) (new_calls w w')
  /\ Forall (fun c => month_call c = false /\ render_call c = true)
       (new_calls w w')
  /\ last (new_calls w w')
     = Some (ErrorPageRecorderSave
               (error_recorder (ProcessorOutputDir +:+ "/errors"))
               errors false ign)
  /\ latest_tweet_id_object w' = latest_tweet_id_object w
  /\ censored_object w' = censored_object w
  /\ tweet_objects w' = tweet_objects w.
Proof.
  intros w' by_date by_user by_userlist by_quest by_questlist error_page
    pending saved.
  subst w' pending saved.
  rewrite render_contents_run. cbn [fst snd].
  rewrite new_calls_after, output_objects_after. split; [done|].
  split.
  { unfold fanout_calls, date_calls, user_calls, quest_calls, error_calls,
      save_calls.
    by rewrite <- !app_assoc. }
  split; [done|].
  split; [apply fanout_calls_flags|]. split.
  - pose proof (fanout_calls_month reports errors d ign) as Hm.
    pose proof (fanout_calls_render reports errors d ign) as Hr.
    rewrite Forall_forall in *. intros c Hc. split; [by apply Hm|by apply Hr].
  - split; [|done]. unfold fanout_calls, error_calls.
    rewrite !app_assoc. apply last_snoc.
Qed.

End MoreProperties.

(** ** Properties of the scheduled run and of sequences of invocations *)

Section MoreCollect.
Context `{Chalicelib}.

Lemma collect_tweets_begins w :
  exists more,
    new_calls w (collect_tweets w).2 = collect_prologue w ++ more.
Proof.
  destruct (collected w) as [[|tw rest] cens] eqn:Hc.
  - rewrite (collect_tweets_empty _ _ Hc). cbn [snd].
    rewrite new_calls_after. exists []. by rewrite app_nil_r.
  - rewrite (collect_tweets_nonempty _ _ _ _ Hc). cbn [snd].
    unfold new_calls. cbn [calls]. rewrite drop_app_length. by eexists.
Qed.

Lemma run_unscheduled i w :
  unscheduled i = true ->
  latest_tweet_id_object (run i w) = latest_tweet_id_object w
  /\ censored_object (run i w) = censored_object w.
Proof.
  destruct i as [|data|event|event|f t txt r]; cbn [run unscheduled]; [done|..].
  - intros _. by destruct (recollect_tweets_frame data w) as (t & o & cs & -> & _).
  - intros _. by destruct (rebuild_frame event w) as (o & cs & ->).
  - intros _. by destruct (invalidate_frame event w) as (cs & ->).
  - done.
Qed.

Lemma run_all_unscheduled invs :
  forall w, forallb unscheduled invs = true ->
    latest_tweet_id_object (run_all invs w) = latest_tweet_id_object w
    /\ censored_object (run_all invs w) = censored_object w.
Proof.
  induction invs as [|i invs IH]; intros w Hall; [done|].
  cbn [forallb] in Hall. apply andb_prop in Hall as [Hi Hall].
  change (run_all (i :: invs) w) with (run_all invs (run i w)).
  destruct (IH (run i w) Hall) as [-> ->].
  by apply run_unscheduled.
Qed.

(** The cursor object stays absent or ASCII: a scheduled run leaves it
    as it was or writes [str(tweet_id)], and no other invocation writes
    it. *)
Lemma collect_tweets_ascii_cursor w :
  ascii_cursor w -> ascii_cursor (collect_tweets w).2.
Proof.
  intros Hw. destruct (collected w) as [[|tw rest] cens] eqn:Hc.
  - rewrite (collect_tweets_empty _ _ Hc). exact Hw.
  - rewrite (collect_tweets_nonempty _ _ _ _ Hc). apply is_ascii_str.
Qed.

Lemma run_ascii_cursor i w : ascii_cursor w -> ascii_cursor (run i w).
Proof.
  intros Hw. destruct (unscheduled i) eqn:Hi.
  - unfold ascii_cursor. by rewrite (proj1 (run_unscheduled i w Hi)).
  - destruct i; try discriminate Hi. by apply collect_tweets_ascii_cursor.
Qed.

Lemma run_all_ascii_cursor invs :
  forall w, ascii_cursor w -> ascii_cursor (run_all invs w).
Proof.
  induction invs as [|i invs IH]; intros w Hw; [done|].
  change (run_all (i :: invs) w) with (run_all invs (run i w)).
  by apply IH, run_ascii_cursor.
Qed.

(** X6.  A scheduled run with a non-empty batch writes in a fixed order:
    the whole batch goes to the raw log under the name of the invocation's
    time stamp before anything is rendered; the fan-out follows, with the
    skip target 2000-01-01, [force=False] and [ignore_original=False]; the
    Cursor is uploaded only after the fan-out, and the exclusion set, as
    the collection left it, is saved last. *)
Theorem collect_tweets_writes_in_order w tw rest cens :
  collected w = (tw :: rest, cens) ->
  let tweets := tw :: rest in
  let file := strftime_Ymd_HMS (now w) +:+ ".json" in
  let reports := (parse_tweets tweets).1 in
  let errors := (parse_tweets tweets).2 in
  let w' := (collect_tweets w).2 in
  new_calls w w'
  = [S3DownloadFileobj latest_tweet_id_file_key;
     CensoredAccountsInit censored_accounts_filepath;
     AgentCollect 5 (cursor w);
     TweetRepositoryPut file tweets]
    ++ fanout_calls reports errors (Date 2000 1 1) false
    ++ [S3UploadFileobj latest_tweet_id_file_key (Py.str (tweet_id tw));
        CensoredAccountsSave]
  /\ tweet_objects w' = tweet_put file tweets (tweet_objects w)
  /\ output_objects w'
     = fanout_outputs reports errors (Date 2000 1 1) false (output_objects w)
  /\ censored_object w' = censored_save cens (censored_object w).
Proof.
  intros Hc tweets file reports errors w'. subst w'.
  rewrite (collect_tweets_nonempty _ _ _ _ Hc). cbn [snd].
  unfold new_calls.
  cbn [calls tweet_objects output_objects censored_object].
  by rewrite drop_app_length.
Qed.

(** X7.  A cursor object that is absent, or whose text is ASCII and not
    an integer literal, is a cold start and not an error: the run returns
    normally and asks the collector for items with [since_id=None]. *)
Theorem collect_tweets_cold_start w :
  latest_tweet_id_object w = None
  \/ (exists s, latest_tweet_id_object w = Some s
                /\ Py.is_ascii s = true /\ Py.int s = None) ->
  (collect_tweets w).1 = Return tt
  /\ take 3 (new_calls w (collect_tweets w).2)
     = [S3DownloadFileobj latest_tweet_id_file_key;
        CensoredAccountsInit censored_accounts_filepath;
        AgentCollect 5 None].
Proof.
  intros Hcold. split; [apply collect_tweets_returns|].
  assert (Hcur : cursor w = None).
  { unfold cursor. by destruct Hcold as [->|(s & -> & _ & ->)]. }
  destruct (collect_tweets_begins w) as [more ->].
  unfold collect_prologue. by rewrite Hcur.
Qed.

(** X8.  The Cursor survives the round trip through its object: after a
    scheduled run with a non-empty batch, and whatever recollections,
    rebuilds, invalidations and changes of the surroundings come in
    between, the next scheduled run asks the collector for the items
    since the identifier of the first item of that batch. *)
Theorem next_run_resumes_from_first_item w tw rest cens invs :
  collected w = (tw :: rest, cens) ->
  forallb unscheduled invs = true ->
  let w1 := run_all invs (collect_tweets w).2 in
  take 3 (new_calls w1 (collect_tweets w1).2)
  = [S3DownloadFileobj latest_tweet_id_file_key;
     CensoredAccountsInit censored_accounts_filepath;
     AgentCollect 5 (Some (tweet_id tw))].
Proof.
  intros Hc Hinvs w1.
  assert (Hcur : cursor w1 = Some (tweet_id tw)).
  { unfold cursor. subst w1.
    rewrite (proj1 (run_all_unscheduled invs _ Hinvs)).
    rewrite (collect_tweets_nonempty _ _ _ _ Hc). cbn [snd].
    cbn [latest_tweet_id_object]. apply int_str. }
  destruct (collect_tweets_begins w1) as [more ->].
  unfold collect_prologue. by rewrite Hcur.
Qed.

(** X9.  Only the scheduled run writes the Cursor object and the persisted
    exclusion set: over any sequence of recollections, rebuilds,
    invalidations and changes of the surroundings both stay as they
    were. *)
Theorem only_scheduled_runs_write_cursor_and_exclusions invs w :
  forallb unscheduled invs = true ->
  latest_tweet_id_object (run_all invs w) = latest_tweet_id_object w
  /\ censored_object (run_all invs w) = censored_object w.
Proof. apply run_all_unscheduled. Qed.

End MoreCollect.

(** ** Properties of the recollection *)

Section MoreRecollect.
Context `{Chalicelib}.

Lemma elem_of_candidates_of o items t :
  t ∈ candidates_of o items
  <-> exists user targets,
        (user, targets) ∈ items /\ t ∈ targets
        /\ t ∉ user_output_load user (ProcessorOutputDir +:+ "/user") o.
Proof.
  unfold candidates_of, missing_targets. rewrite list_elem_of_bind. split.
  - intros ([user targets] & Ht & Hin). cbn [fst snd] in Ht.
    apply list_elem_of_filter in Ht as [Hnot Ht]. by exists user, targets.
  - intros (user & targets & Hin & Ht & Hnot). exists (user, targets).
    split; [|done]. cbn [fst snd]. by apply list_elem_of_filter.
Qed.

(** X10.  The loop over the requested sources loads the rendered state of
    each source once, in the order of the dict, changes nothing, and
    returns as candidates exactly the requested targets that are not in
    the state of their source. *)
Theorem find_candidates_selects_missing_targets items w :
  (find_candidates items [] w).1
  = Return (candidates_of (output_objects w) items)
  /\ same_objects w (find_candidates items [] w).2
  /\ new_calls w (find_candidates items [] w).2
     = (fun item => UserOutputRepositoryLoad item.1) <$> items
  /\ forall t,
       t ∈ candidates_of (output_objects w) items
       <-> exists user targets,
             (user, targets) ∈ items /\ t ∈ targets
             /\ t ∉ user_output_load user (ProcessorOutputDir +:+ "/user")
                    (output_objects w).
Proof.
  rewrite find_candidates_run. cbn [fst snd app]. rewrite new_calls_after.
  repeat split; try done; apply elem_of_candidates_of.
Qed.

(** X11.  When there are candidates but the feed returns none of them, the
    recollection returns the success status after its one fetch: nothing
    is appended to the raw log and nothing is rendered. *)
Theorem recollect_tweets_without_results urls d w :
  Z.of_nat (length urls) <= 20 ->
  parse_multi urls = Some d ->
  candidates_of (output_objects w) d <> [] ->
  agent_get_multi (feed w) (candidates_of (output_objects w) d) = [] ->
  (recollect_tweets (JList urls) w).1 = Return status_ok
  /\ same_objects w (recollect_tweets (JList urls) w).2
  /\ new_calls w (recollect_tweets (JList urls) w).2
     = ((fun item => UserOutputRepositoryLoad item.1) <$> d)
       ++ [AgentGetMulti (candidates_of (output_objects w) d)].
Proof.
  intros Hlen Hd Hne Hg.
  destruct (candidates_of (output_objects w) d) as [|c cands] eqn:Hc; [done|].
  rewrite (recollect_tweets_no_results urls d w c cands Hlen Hd Hc Hg).
  cbn [fst snd]. by rewrite new_calls_after.
Qed.

(** X12.  Whatever the body, the calls of a recollection are, in this
    order: loads of per-source state, at most one fetch, and then only
    appends to the raw log and renders of the date, user and quest stages
    and of the error page.  It never overwrites a raw-log entry, never
    renders the month stage, and writes nothing unless it has fetched. *)
Theorem recollect_tweets_loads_fetches_then_writes data w :
  exists loads fetches writes,
    new_calls w (recollect_tweets data w).2 = loads ++ fetches ++ writes
    /\ Forall (fun c => load_call c = true) loads
    /\ (fetches = [] \/ exists ids, fetches = [AgentGetMulti ids])
    /\ Forall (fun c => recollect_call c = true) writes
    /\ (fetches = [] -> writes = [])
    /\ Forall (fun c => month_call c = false
                        /\ forall file tweets, c <> TweetRepositoryPut file tweets)
         (new_calls w (recollect_tweets data w).2).
Proof.
  destruct (recollect_tweets_shape data w)
    as (t & o & loads & fetches & writes & -> & Hl & Hf & Hw & Hnone).
  rewrite new_calls_after. exists loads, fetches, writes.
  repeat split; try done.
  rewrite !Forall_app. repeat split.
  - eapply Forall_impl; [exact Hl|]. intros c Hc. by destruct c.
  - destruct Hf as [->|[ids ->]]; by repeat constructor.
  - eapply Forall_impl; [exact Hw|]. intros c Hc.
    destruct c; try done. cbn in *. by destruct (partitioningRule r).
Qed.

(** X13.  When the feed returns some of the candidates, each fetched tweet
    is appended to the raw log exactly once, under the name
    [YYYYMMDD_000000.json] of its posting date, one append per posting
    date; with posting dates of the usual width no entry is appended to
    twice in one call. *)
Theorem recollect_tweets_appends_by_date urls d w :
  Z.of_nat (length urls) <= 20 ->
  parse_multi urls = Some d ->
  let tweet_dict :=
    agent_get_multi (feed w) (candidates_of (output_objects w) d) in
  let written := appended (new_calls w (recollect_tweets (JList urls) w).2) in
  candidates_of (output_objects w) d <> [] ->
  tweet_dict <> [] ->
  written
  = (fun entry => (strftime_Ymd_000000 entry.1 +:+ ".json", entry.2))
    <$> split_tweets_by_date (snd <$> tweet_dict)
  /\ concat written.*2 ≡ₚ snd <$> tweet_dict
  /\ (Forall (fun tw => four_digit_year (posted_on tw)) (snd <$> tweet_dict) ->
      NoDup written.*1).
Proof.
  intros Hlen Hd tweet_dict written Hne Hsome. subst written tweet_dict.
  destruct (candidates_of (output_objects w) d) as [|c cands] eqn:Hc; [done|].
  destruct (agent_get_multi (feed w) (c :: cands)) as [|p ps] eqn:Hg; [done|].
  destruct (recollect_tweets_rendered urls d w c cands p ps Hlen Hd Hc Hg)
    as (t & o & ->).
  cbn [snd]. rewrite new_calls_after, !appended_app, appended_loads.
  cbn [appended omap list_omap app]. rewrite appended_recollect_date_calls.
  set (fetched := snd <$> p :: ps).
  destruct (split_tweets_by_date_groups fetched) as (Hnd & Hgroups & _ & Hperm).
  split; [done|]. split.
  - rewrite <- list_fmap_compose.
    rewrite (list_fmap_ext _ snd (split_tweets_by_date fetched)) by done.
    exact Hperm.
  - intros Hdates. rewrite <- list_fmap_compose.
    apply NoDup_fmap_2_strong; [|by eapply NoDup_fmap_1].
    intros [d1 g1] [d2 g2] H1 H2 Heq. cbn in Heq.
    assert (Hvalid : forall dt g, (dt, g) ∈ split_tweets_by_date fetched ->
              four_digit_year dt).
    { intros dt g Hin. destruct (Hgroups dt g Hin) as [Hg0 Hgf].
      destruct g as [|tw g]; [done|].
      assert (Htw : tw ∈ filter (fun o => posted_on o = dt) fetched)
        by (rewrite <- Hgf; left).
      apply list_elem_of_filter in Htw as [<- Htw].
      rewrite Forall_forall in Hdates. by apply Hdates. }
    unfold strftime_Ymd_000000 in Heq. rewrite !string_app_assoc in Heq.
    destruct (strftime_Ymd_inj d1 d2 _ _ (Hvalid _ _ H1) (Hvalid _ _ H2) Heq)
      as [-> _].
    f_equal. rewrite <- (dict_get_elem _ _ _ Hnd H1).
    by rewrite <- (dict_get_elem _ _ _ Hnd H2).
Qed.

End MoreRecollect.

(** ** Properties of the rebuild, of the invalidation and of the log names *)

Section MoreRebuild.
Context `{Chalicelib}.

Lemma guarded_calls_rebuild event reports d :
  Forall (fun c => rebuild_call c = true) (guarded_calls event reports d).
Proof.
  unfold guarded_calls, date_calls, user_calls, quest_calls, month_calls,
    save_calls.
  destruct (skipBuildDate event), (skipBuildUser event),
    (skipBuildQuest event), (skipBuildMonth event);
    repeat case_decide; by repeat constructor.
Qed.

Lemma endswith_index_key k :
  Py.endswith ("/" +:+ k) "/index.html" = true
  <-> k = "index.html"%string \/ Py.endswith k "/index.html" = true.
Proof.
  split.
  - intros [[|a p] Hp]%endswith_inv.
    + rewrite string_app_nil_l in Hp.
      change ("/" +:+ k) with (String "/" k) in Hp. injection Hp as ->.
      by left.
    + change ("/" +:+ k) with (String "/" k) in Hp.
      rewrite string_app_cons in Hp. injection Hp as -> ->.
      right. apply endswith_app.
  - intros [->|[p ->]%endswith_inv]; [reflexivity|].
    change ("/" +:+ (p +:+ "/index.html"))
      with (String "/" p +:+ "/index.html").
    apply endswith_app.
Qed.

(** X14.  A skip-target date that is given, not empty and rejected by
    [date.fromisoformat] aborts the rebuild with [ValueError] before
    anything is loaded or written. *)
Theorem rebuild_outputs_rejects_bad_date event s w :
  skipTargetDate event = Some s ->
  s <> EmptyString ->
  date_fromisoformat s = None ->
  rebuild_outputs event w = (Raise ValueError, w).
Proof.
  intros Hs Hne Hd. apply rebuild_outputs_raises.
  unfold rebuild_target. rewrite Hs. by destruct s.
Qed.

(** X15.  An empty [skipTargetDate] is an absent one: the rebuild does not
    parse it, takes 2000-01-01 as the skip target and runs as it does
    without the key. *)
Theorem rebuild_outputs_empty_date_is_default event w :
  skipTargetDate event = Some EmptyString ->
  rebuild_outputs event w
  = rebuild_outputs
      {| skipTargetDate := None;
         skipBuildDate := skipBuildDate event;
         skipBuildUser := skipBuildUser event;
         skipBuildQuest := skipBuildQuest event;
         skipBuildMonth := skipBuildMonth event |} w
  /\ (rebuild_outputs event w).1 = Return tt
  /\ new_calls w (rebuild_outputs event w).2
     = rebuild_prologue w
       ++ guarded_calls event (parse_tweets (rebuild_tweets w)).1 (Date 2000 1 1)
       ++ fanout_calls (parse_tweets (rebuild_tweets w)).1
            (parse_tweets (rebuild_tweets w)).2 (Date 2000 1 1) true.
Proof.
  intros Hs. split.
  - destruct event as [target bd bu bq bm]. cbn in Hs. subst target.
    reflexivity.
  - assert (Hd : rebuild_target event = Some (Date 2000 1 1))
      by (unfold rebuild_target; by rewrite Hs).
    rewrite (rebuild_outputs_run _ _ _ Hd). cbn [fst snd].
    by rewrite new_calls_after.
Qed.

(** X16.  A rebuild only reads the exclusion set and the raw history and
    writes rendered objects: whatever the event, the Cursor object, the
    persisted exclusion set and the raw log are as they were, and every
    call is the construction or listing of the exclusion set, the read of
    the raw history, or a render call; the feed is not contacted. *)
Theorem rebuild_outputs_writes_only_renders event w :
  let w' := (rebuild_outputs event w).2 in
  latest_tweet_id_object w' = latest_tweet_id_object w
  /\ censored_object w' = censored_object w
  /\ tweet_objects w' = tweet_objects w
  /\ Forall (fun c => rebuild_call c = true /\ fetch_call c = false)
       (new_calls w w').
Proof.
  intros w'. subst w'. destruct (rebuild_target event) as [d|] eqn:Hd.
  - rewrite (rebuild_outputs_run _ _ _ Hd). cbn [snd].
    rewrite new_calls_after. repeat split.
    pose proof (guarded_calls_rebuild event
                  (parse_tweets (rebuild_tweets w)).1 d) as Hg.
    pose proof (fanout_calls_render (parse_tweets (rebuild_tweets w)).1
                  (parse_tweets (rebuild_tweets w)).2 d true) as Hf.
    rewrite !Forall_app. repeat split.
    + by repeat constructor.
    + eapply Forall_impl; [exact Hg|]. intros c Hc. by destruct c.
    + eapply Forall_impl; [exact Hf|]. intros c Hc. by destruct c.
  - rewrite (rebuild_outputs_raises _ _ Hd). cbn [snd].
    unfold new_calls. rewrite drop_all. by repeat split.
Qed.

(** X17.  The invalidation looks at the first record of a notification
    and at nothing else: without a record it raises [IndexError] and does
    nothing; with one, the records after it do not matter, it returns
    normally, leaves every persisted object as it was and issues at most
    one call. *)
Theorem invalidate_reads_first_record_only record rest rest' w :
  invalidate_cloudfront_cache {| Records := [] |} w = (Raise IndexError, w)
  /\ invalidate_cloudfront_cache {| Records := record :: rest |} w
     = invalidate_cloudfront_cache {| Records := record :: rest' |} w
  /\ (invalidate_cloudfront_cache {| Records := record :: rest |} w).1
     = Return tt
  /\ same_objects w
       (invalidate_cloudfront_cache {| Records := record :: rest |} w).2
  /\ (length (new_calls w
        (invalidate_cloudfront_cache {| Records := record :: rest |} w).2)
      <= 1)%nat.
Proof.
  split; [reflexivity|]. split; [reflexivity|].
  destruct (Py.endswith ("/" +:+ key record) "/index.html") eqn:He.
  - destruct (Z.lt_ge_cases (size record) 600) as [Hs|Hs].
    + rewrite invalidate_small by done. cbn [fst snd].
      unfold new_calls. rewrite drop_all. repeat split. cbn. lia.
    + destruct (invalidate_issued record rest w He Hs) as (p & _ & ->).
      cbn [fst snd]. rewrite new_calls_after. repeat split. cbn. lia.
  - rewrite invalidate_not_index by done. cbn [fst snd].
    unfold new_calls. rewrite drop_all. repeat split. cbn. lia.
Qed.

(** X18.  In terms of the key itself: a write triggers an invalidation
    exactly when the object has at least 600 bytes and its key is
    [index.html] or ends in [/index.html]; a key that merely ends in
    [index.html] does not qualify. *)
Theorem invalidate_qualifying_keys k n rest w :
  new_calls w
    (invalidate_cloudfront_cache
       {| Records := {| key := k; size := n |} :: rest |} w).2 <> []
  <-> (k = "index.html"%string \/ Py.endswith k "/index.html" = true)
      /\ 600 <= n.
Proof.
  rewrite <- endswith_index_key.
  destruct (Py.endswith ("/" +:+ k) "/index.html") eqn:He.
  - destruct (Z.lt_ge_cases n 600) as [Hs|Hs].
    + rewrite invalidate_small by done. cbn [snd].
      unfold new_calls. rewrite drop_all. split; [done|]. intros [_ ?]. lia.
    + destruct (invalidate_issued {| key := k; size := n |} rest w He Hs)
        as (p & _ & ->).
      cbn [snd]. by rewrite new_calls_after.
  - rewrite invalidate_not_index by done. cbn [snd].
    unfold new_calls. rewrite drop_all. split; [done|]. by intros [? _].
Qed.

End MoreRebuild.

Section MoreNames.

Lemma strftime_Ymd_HMS_inj t1 t2 :
  clock_time t1 -> clock_time t2 ->
  strftime_Ymd_HMS t1 = strftime_Ymd_HMS t2 -> t1 = t2.
Proof.
  intros (Hd1 & Hh1 & Hm1 & Hs1) (Hd2 & Hh2 & Hm2 & Hs2) Heq.
  unfold strftime_Ymd_HMS in Heq.
  apply strftime_Ymd_inj in Heq as [Hd Heq]; [|done..].
  change ("_" +:+ ?r) with (String "_" r) in Heq. injection Heq as Heq.
  apply (pad_app_inj 2) in Heq as [Hh Heq]; [|cbn; lia..].
  apply (pad_app_inj 2) in Heq as [Hm Heq]; [|cbn; lia..].
  apply (pad_inj 2) in Heq; [|lia..].
  destruct t1, t2. cbn in *. congruence.
Qed.

Lemma json_suffix_inj (a b : string) : a +:+ ".json" = b +:+ ".json" -> a = b.
Proof.
  intros Heq. apply (string_app_inj_length a ".json" b ".json"); [|done].
  apply (f_equal String.length) in Heq.
  rewrite !string_app_length in Heq. lia.
Qed.

(** X19.  The names of the raw-log entries tell their dates apart.  For
    dates and times of the usual width, the scheduled run names distinct
    seconds differently and the recollection names distinct days
    differently; and a name of the scheduled run is the name the
    recollection gives to a day exactly when the run takes place at
    00:00:00 of that day. *)
Theorem raw_log_names_are_injective t1 t2 d1 d2 :
  clock_time t1 -> clock_time t2 ->
  four_digit_year d1 -> four_digit_year d2 ->
  (strftime_Ymd_HMS t1 +:+ ".json" = strftime_Ymd_HMS t2 +:+ ".json"
   -> t1 = t2)
  /\ (strftime_Ymd_000000 d1 +:+ ".json" = strftime_Ymd_000000 d2 +:+ ".json"
      -> d1 = d2)
  /\ (strftime_Ymd_HMS t1 +:+ ".json" = strftime_Ymd_000000 d1 +:+ ".json"
      <-> t1 = DateTime d1 0 0 0).
Proof.
  intros Ht1 Ht2 Hd1 Hd2.
  assert (Hmid : forall d, strftime_Ymd_HMS (DateTime d 0 0 0)
                           = strftime_Ymd_000000 d).
  { intros d. unfold strftime_Ymd_HMS, strftime_Ymd_000000. reflexivity. }
  assert (Hclock : clock_time (DateTime d1 0 0 0)).
  { split; [done|]. cbn. lia. }
  split; [|split].
  - intros Heq%json_suffix_inj. by apply strftime_Ymd_HMS_inj.
  - intros Heq%json_suffix_inj. rewrite <- !Hmid in Heq.
    apply strftime_Ymd_HMS_inj in Heq; [by injection Heq|done|].
    split; [done|]. cbn. lia.
  - split.
    + intros Heq%json_suffix_inj. rewrite <- Hmid in Heq.
      by apply strftime_Ymd_HMS_inj.
    + intros ->. by rewrite Hmid.
Qed.

End MoreNames.

(** ** The further properties on the concrete instance *)

(** X3 on a stage with no report. *)
Lemma render_user_contents_saves_only_pending_witness :
  render_user_contents [] (Date 2000 1 1) false false Demo.fresh_world
  = (Return tt, Demo.fresh_world).
Proof.
  apply (render_user_contents_saves_only_pending (H := Demo.lib)
           [] (Date 2000 1 1) false false Demo.fresh_world); reflexivity.
Defined.

(** X6 on the first run of a world with two posts upstream. *)
Lemma collect_tweets_writes_in_order_witness :
  collected Demo.fresh_world = ([Demo.tweet2; Demo.tweet1], [])
  /\ tweet_objects (collect_tweets Demo.fresh_world).2
     = [("20240503_090807.json"%string, [Demo.tweet2; Demo.tweet1])]
  /\ output_objects (collect_tweets Demo.fresh_world).2
     = [("bob"%string, 1002); ("alice"%string, 1001)].
Proof.
  split; [reflexivity|].
  destruct (collect_tweets_writes_in_order Demo.fresh_world
              Demo.tweet2 [Demo.tweet1] [] eq_refl)
    as (_ & Htweets & Houtputs & _).
  split; [exact Htweets|exact Houtputs].
Defined.

(** X7 on a cursor object that holds [10x01]. *)
Lemma collect_tweets_cold_start_witness :
  (exists s, latest_tweet_id_object DemoMore.garbled_world = Some s
             /\ Py.is_ascii s = true /\ Py.int s = None)
  /\ (collect_tweets DemoMore.garbled_world).1 = Return tt
  /\ take 3 (new_calls DemoMore.garbled_world
               (collect_tweets DemoMore.garbled_world).2)
     = [S3DownloadFileobj "settings/latest_tweet_id";
        CensoredAccountsInit "settings/censored_accounts";
        AgentCollect 5 None].
Proof.
  assert (Hgarbled : exists s,
            latest_tweet_id_object DemoMore.garbled_world = Some s
            /\ Py.is_ascii s = true /\ Py.int s = None).
  { exists "10x01"%string. repeat split; reflexivity. }
  split; [exact Hgarbled|].
  exact (collect_tweets_cold_start DemoMore.garbled_world (or_intror Hgarbled)).
Defined.

(** X8 and X9 over a recollection and a rebuild after the first run. *)
Lemma next_run_resumes_from_first_item_witness :
  collected Demo.fresh_world = ([Demo.tweet2; Demo.tweet1], [])
  /\ take 3
       (new_calls
          (run_all [Recollect Demo.gone_url; Rebuild Demo.skip_month]
             (collect_tweets Demo.fresh_world).2)
          (collect_tweets
             (run_all [Recollect Demo.gone_url; Rebuild Demo.skip_month]
                (collect_tweets Demo.fresh_world).2)).2)
     = [S3DownloadFileobj "settings/latest_tweet_id";
        CensoredAccountsInit "settings/censored_accounts";
        AgentCollect 5 (Some 1002)].
Proof.
  split; [reflexivity|].
  exact (next_run_resumes_from_first_item Demo.fresh_world Demo.tweet2
           [Demo.tweet1] []
           [Recollect Demo.gone_url; Rebuild Demo.skip_month]
           eq_refl eq_refl).
Defined.

Lemma only_scheduled_runs_write_cursor_and_exclusions_witness :
  latest_tweet_id_object
    (run_all [Recollect Demo.gone_url; Rebuild Demo.skip_month;
              Invalidate (Demo.index_written "a/index.html" 2000)]
       Demo.quiet_world)
  = Some "1001"%string.
Proof.
  exact (proj1 (only_scheduled_runs_write_cursor_and_exclusions
                  [Recollect Demo.gone_url; Rebuild Demo.skip_month;
                   Invalidate (Demo.index_written "a/index.html" 2000)]
                  Demo.quiet_world eq_refl)).
Defined.

(** X11 on a request for a post that the feed no longer returns. *)
Lemma recollect_tweets_without_results_witness :
  parse_multi (H := Demo.lib) [JString "alice/404"] = Some [("alice"%string, [404])]
  /\ candidates_of (H := Demo.lib) (output_objects Demo.fresh_world)
       [("alice"%string, [404])] = [404]
  /\ same_objects Demo.fresh_world
       (recollect_tweets Demo.gone_url Demo.fresh_world).2.
Proof.
  assert (Hc : candidates_of (H := Demo.lib) (output_objects Demo.fresh_world)
                 [("alice"%string, [404])] = [404]) by reflexivity.
  split; [reflexivity|]. split; [exact Hc|].
  refine (proj1 (proj2 (recollect_tweets_without_results (H := Demo.lib)
            [JString "alice/404"] [("alice"%string, [404])] Demo.fresh_world
            _ eq_refl _ _))).
  - cbn. lia.
  - by rewrite Hc.
  - by rewrite Hc.
Defined.

(** X13 on a request for the two posts upstream, which are of different
    days. *)
Lemma recollect_tweets_appends_by_date_witness :
  appended (new_calls Demo.fresh_world
              (recollect_tweets (JList DemoMore.two_urls) Demo.fresh_world).2)
  = [("20240502_000000.json"%string, [Demo.tweet2]);
     ("20240501_000000.json"%string, [Demo.tweet1])].
Proof.
  refine (eq_trans (proj1 (recollect_tweets_appends_by_date (H := Demo.lib)
            DemoMore.two_urls
            [("alice"%string, [1001]); ("bob"%string, [1002])]
            Demo.fresh_world _ eq_refl _ _)) _).
  - cbn. lia.
  - by assert (candidates_of (H := Demo.lib) (output_objects Demo.fresh_world)
                 [("alice"%string, [1001]); ("bob"%string, [1002])]
               = [1001; 1002]) as -> by reflexivity.
  - by assert (@agent_get_multi Demo.lib (feed Demo.fresh_world)
                 (candidates_of (output_objects Demo.fresh_world)
                    [("alice"%string, [1001]); ("bob"%string, [1002])])
               = [(1002, Demo.tweet2); (1001, Demo.tweet1)]) as -> by reflexivity.
  - reflexivity.
Defined.

(** X14 on a skip-target date that is not a date. *)
Lemma rebuild_outputs_rejects_bad_date_witness :
  @date_fromisoformat Demo.lib "yesterday" = None
  /\ rebuild_outputs DemoMore.bad_date Demo.archive_world
     = (Raise ValueError, Demo.archive_world).
Proof.
  split; [reflexivity|].
  by apply (rebuild_outputs_rejects_bad_date (H := Demo.lib)
              DemoMore.bad_date "yesterday" Demo.archive_world).
Defined.

(** X15 on an empty skip-target date. *)
Lemma rebuild_outputs_empty_date_is_default_witness :
  skipTargetDate DemoMore.empty_date = Some EmptyString
  /\ (rebuild_outputs DemoMore.empty_date Demo.archive_world).1 = Return tt.
Proof.
  split; [reflexivity|].
  exact (proj1 (proj2 (rebuild_outputs_empty_date_is_default (H := Demo.lib)
                         DemoMore.empty_date Demo.archive_world eq_refl))).
Defined.

(** X19 on a run at midnight and a run one second later. *)
Lemma raw_log_names_are_injective_witness :
  clock_time (DateTime (Date 2024 5 1) 0 0 0)
  /\ clock_time (DateTime (Date 2024 5 1) 0 0 1)
  /\ four_digit_year (Date 2024 5 1)
  /\ (strftime_Ymd_HMS (DateTime (Date 2024 5 1) 0 0 0) +:+ ".json"
      = strftime_Ymd_000000 (Date 2024 5 1) +:+ ".json").
Proof.
  assert (Hd : four_digit_year (Date 2024 5 1)) by (cbv; intuition discriminate).
  assert (H0 : clock_time (DateTime (Date 2024 5 1) 0 0 0))
    by (split; [exact Hd|cbv; intuition discriminate]).
  assert (H1 : clock_time (DateTime (Date 2024 5 1) 0 0 1))
    by (split; [exact Hd|cbv; intuition discriminate]).
  split; [exact H0|]. split; [exact H1|]. split; [exact Hd|].
  exact (proj2 (proj2 (proj2 (raw_log_names_are_injective _ _ _ _ H0 H1 Hd Hd)))
           eq_refl).
Defined.
